(** * Transformer in Transformer (TNT): the model-building code of
    [examples/vision/ipynb/transformer_in_transformer.ipynb]

    The notebook builds a Keras functional model: every call of a layer on a
    symbolic tensor adds a node to a graph and runs the framework's static
    shape inference, which may raise.  The embedding below follows that
    reading.  A symbolic tensor ([KerasTensor]) carries its static shape and
    the graph node that produced it; creating a layer allocates a fresh layer
    identity (the layer owns its weights); Python and framework exceptions
    are the [Err] results of a state-and-error monad.

    The framework itself (shape rules of Conv2D, Dense, reshape, ...) is not
    part of the notebook; module [Keras] records the documented rules the
    notebook relies on. *)

From Stdlib Require Import ZArith List String QArith Lia Bool.
Import ListNotations.
Local Open Scope Z_scope.

(** ** Exceptions and the build monad *)

Inductive error : Type :=
| ZeroDivisionError            (* Python: [//] or [/] by zero *)
| UnpackError                  (* Python: ValueError of a tuple unpacking *)
| ConfigError                  (* framework: invalid layer argument *)
| ShapeError (op : string).    (* framework: static shape inference failed *)

Inductive result (A : Type) : Type :=
| Ok (a : A)
| Err (e : error).
Arguments Ok {A} a.
Arguments Err {A} e.

(** State: the next unused layer identity. *)
Definition M (A : Type) : Type := nat -> result (A * nat).

Definition ret {A} (a : A) : M A := fun s => Ok (a, s).

Definition bind {A B} (m : M A) (k : A -> M B) : M B :=
  fun s => match m s with
           | Ok (a, s') => k a s'
           | Err e => Err e
           end.

Definition raise {A} (e : error) : M A := fun _ => Err e.

Definition lift {A} (r : result A) : M A :=
  fun s => match r with Ok a => Ok (a, s) | Err e => Err e end.

Definition fresh : M nat := fun s => Ok (s, S s).

Notation "x <- m ;; k" := (bind m (fun x => k))
  (at level 61, m at next level, right associativity).
Notation "' pat <- m ;; k" := (bind m (fun x => match x with pat => k end))
  (at level 61, pat pattern, m at next level, right associativity).

(** Python's [for _ in range(n): a = body(a)]: no iteration when [n <= 0]. *)
Fixpoint iterate {A} (n : nat) (body : A -> M A) (a : A) : M A :=
  match n with
  | O => ret a
  | S k => a' <- body a ;; iterate k body a'
  end.

Definition for_range {A} (n : Z) (body : A -> M A) (a : A) : M A :=
  iterate (Z.to_nat n) body a.

(** ** Python integer arithmetic *)

Module Py.

(** [a // b] *)
Definition floordiv (a b : Z) : result Z :=
  if b =? 0 then Err ZeroDivisionError else Ok (a / b).

(** [math.ceil(a / b)]; the float quotient is exact enough for the ceiling
    to be the mathematical one on the sizes a model can have (below 2^53). *)
Definition ceil_truediv (a b : Z) : result Z :=
  if b =? 0 then Err ZeroDivisionError else Ok (- ((- a) / b)).

End Py.

(** ** The framework: symbolic tensors, layers and their shape rules *)

Module Keras.

(** A static shape; [None] is a dimension unknown when the graph is built
    (the batch dimension of [layers.Input]). *)
Definition TensorShape : Type := list (option Z).

Inductive padding : Type := SAME | VALID.
Inductive activation : Type := gelu | softmax.

Inductive layer_config : Type :=
| Rescaling (scale : Q)
| Resizing (height width : Z)
| RandomFlip (mode : string)
| RandomRotation (factor : Q)
| RandomContrast (factor : Q)
| RandomZoom (height_factor width_factor : Q)
| Conv2D (filters kernel_size strides : Z) (pad : padding)
| Dense (units : Z) (act : option activation)
| Embedding (input_dim output_dim : Z)
| LayerNormalization (epsilon : Q)
| Dropout (rate : Q)
| MultiHeadAttention (num_heads key_dim : Z) (dropout : Q)
| Add
| GlobalAvgPool1D.

(** A layer object the notebook constructs: its configuration and the
    identity that owns its weights.  The operations [tf.reshape] and
    [tf.image.extract_patches] hold no weights; the framework wraps each in
    an op layer of its own, named from a counter of its own, and they are
    the nodes [NReshape] and [NExtractPatches] of the graph below. *)
Record layer : Type := mkLayer { layer_uid : nat; layer_cfg : layer_config }.

(** The graph behind a symbolic tensor. *)
Inductive node : Type :=
| NInput (uid : nat) (s : TensorShape)
| NCall (l : layer) (x : node)
| NCall2 (l : layer) (x y : node)
| NReshape (x : node) (target : list Z)
| NExtractPatches (x : node) (sizes strides rates : Z * Z * Z * Z) (pad : padding)
| NRange (start limit : Z)
| NPlus (x y : node).

Record KerasTensor : Type := mkTensor { shape : TensorShape; graph : node }.

(** *** Shape arithmetic *)

Definition rate_ok (r : Q) : bool := Qle_bool 0 r && Qle_bool r 1.

Definition valid_config (c : layer_config) : bool :=
  match c with
  | Resizing h w => (0 <? h) && (0 <? w)
  | Conv2D f k s _ => (0 <? f) && (0 <? k) && (0 <? s)
  | Dense u _ => 0 <? u
  | Embedding i o => (0 <? i) && (0 <? o)
  | Dropout r => rate_ok r
  | MultiHeadAttention h k r => (0 <? h) && (0 <? k) && rate_ok r
  | _ => true
  end.

(** Output extent of a strided window over an extent [n]. *)
Definition window (op : string) (pad : padding) (n : option Z) (k s : Z)
  : result (option Z) :=
  match n with
  | None => Ok None
  | Some n =>
      match pad with
      | SAME => Ok (Some ((n + s - 1) / s))
      | VALID => if n - k + s <? 0 then Err (ShapeError op)
                 else Ok (Some ((n - k + s) / s))
      end
  end.

Fixpoint known_elems (s : TensorShape) : Z :=
  match s with
  | [] => 1
  | Some d :: r => d * known_elems r
  | None :: r => known_elems r
  end.

Fixpoint unknown_dims (s : TensorShape) : nat :=
  match s with
  | [] => O
  | Some _ :: r => unknown_dims r
  | None :: r => S (unknown_dims r)
  end.

(** The requested shape of [tf.reshape]: [-1] asks for inference. *)
Fixpoint requested (target : list Z) : result TensorShape :=
  match target with
  | [] => Ok []
  | d :: r =>
      match requested r with
      | Err e => Err e
      | Ok r' => if d =? -1 then Ok (None :: r')
                 else if d <? 0 then Err (ShapeError "reshape")
                 else Ok (Some d :: r')
      end
  end.

Fixpoint fill_unknown (s : TensorShape) (d : Z) : TensorShape :=
  match s with
  | [] => []
  | None :: r => Some d :: r
  | Some k :: r => Some k :: fill_unknown r d
  end.

(** The number of dimensions that keep the element count of a shape from
    being known: a shape with a zero extent has no element, whatever its
    other dimensions are. *)
Definition unknown_count (s : TensorShape) : nat :=
  if known_elems s =? 0 then O else unknown_dims s.

(** Static shape of [tf.reshape]: the missing dimension is computed only
    when the element count of the input is known; otherwise it stays
    unknown and no divisibility is checked when the graph is built. *)
Definition reshape_shape (input : TensorShape) (target : list Z)
  : result TensorShape :=
  match requested target with
  | Err e => Err e
  | Ok out =>
      let kin := known_elems input in
      let kout := known_elems out in
      match unknown_dims out with
      | S (S _) => Err (ShapeError "reshape")
      | _ =>
          match unknown_count input, unknown_count out with
          | O, O => if kin =? kout then Ok out else Err (ShapeError "reshape")
          | O, S _ =>
              if 0 <? kout then
                if kin mod kout =? 0 then Ok (fill_unknown out (kin / kout))
                else Err (ShapeError "reshape")
              else Ok out
          | S O, O =>
              if negb (kin =? 0) && negb (kout mod kin =? 0)
              then Err (ShapeError "reshape") else Ok out
          | _, _ => Ok out
          end
      end
  end.

(** Broadcasting of the [+] operator, one dimension. *)
Definition broadcast_dim (a b : option Z) : result (option Z) :=
  match a, b with
  | Some x, Some y =>
      if x =? y then Ok (Some x)
      else if x =? 1 then Ok (Some y)
      else if y =? 1 then Ok (Some x)
      else Err (ShapeError "add")
  | Some x, None => if 1 <? x then Ok (Some x) else Ok None
  | None, Some y => if 1 <? y then Ok (Some y) else Ok None
  | None, None => Ok None
  end.

(** Shapes aligned from the last dimension, given reversed. *)
Fixpoint broadcast_rev (a b : TensorShape) : result TensorShape :=
  match a, b with
  | [], _ => Ok b
  | _, [] => Ok a
  | x :: a', y :: b' =>
      match broadcast_dim x y, broadcast_rev a' b' with
      | Ok d, Ok r => Ok (d :: r)
      | Err e, _ => Err e
      | _, Err e => Err e
      end
  end.

Definition broadcast (a b : TensorShape) : result TensorShape :=
  match broadcast_rev (rev a) (rev b) with
  | Ok r => Ok (rev r)
  | Err e => Err e
  end.

(** The merge rule of [layers.add]: batch sizes must agree when both are
    known; any other dimension may be unknown, equal, or 1. *)
Definition merge_batch (a b : option Z) : result (option Z) :=
  match a, b with
  | Some x, Some y => if x =? y then Ok a else Err (ShapeError "Add")
  | Some _, None => Ok a
  | None, _ => Ok b
  end.

Definition merge_dim (a b : option Z) : result (option Z) :=
  match a, b with
  | None, _ | _, None => Ok None
  | Some x, Some y =>
      if x =? 1 then Ok b
      else if y =? 1 then Ok a
      else if x =? y then Ok a
      else Err (ShapeError "Add")
  end.

Fixpoint merge_dims (a b : TensorShape) : result TensorShape :=
  match a, b with
  | [], [] => Ok []
  | x :: a', y :: b' =>
      match merge_dim x y, merge_dims a' b' with
      | Ok d, Ok r => Ok (d :: r)
      | Err e, _ => Err e
      | _, Err e => Err e
      end
  | _, _ => Err (ShapeError "Add")
  end.

Definition merge (a b : TensorShape) : result TensorShape :=
  match a, b with
  | x :: a', y :: b' =>
      match merge_batch x y, merge_dims a' b' with
      | Ok d, Ok r => Ok (d :: r)
      | Err e, _ => Err e
      | _, Err e => Err e
      end
  | _, _ => Err (ShapeError "Add")
  end.

(** Replace the last dimension, which must be known, by [u]. *)
Fixpoint project_last (op : string) (s : TensorShape) (u : Z)
  : result TensorShape :=
  match s with
  | [] => Err (ShapeError op)
  | [Some _] => Ok [Some u]
  | [None] => Err (ShapeError op)
  | d :: r =>
      match project_last op r u with
      | Ok r' => Ok (d :: r')
      | Err e => Err e
      end
  end.

(** *** Output shape of a layer call *)

Definition compute_output_shape (c : layer_config) (inputs : list TensorShape)
  : result TensorShape :=
  match c, inputs with
  | Rescaling _, [s] => Ok s
  | RandomFlip _, [s] => Ok s
  | RandomRotation _, [s] => Ok s
  | RandomContrast _, [s] => Ok s
  | RandomZoom _ _, [s] => Ok s
  | Resizing h w, [[b; _; _; ch]] => Ok [b; Some h; Some w; ch]
  | Conv2D f k s pad, [[b; h; w; Some _]] =>
      match window "Conv2D" pad h k s, window "Conv2D" pad w k s with
      | Ok h', Ok w' => Ok [b; h'; w'; Some f]
      | Err e, _ => Err e
      | _, Err e => Err e
      end
  | Dense u _, [(_ :: _ :: _) as s] => project_last "Dense" s u
  | Embedding _ o, [s] => Ok (s ++ [Some o])
  | LayerNormalization _, [s] =>
      match project_last "LayerNormalization" s 0 with
      | Ok _ => Ok s
      | Err e => Err e
      end
  | Dropout _, [s] => Ok s
  | MultiHeadAttention _ _ _, [[b; t; Some d]; [b'; _; Some _]] =>
      match merge_batch b b' with
      | Ok _ => Ok [b; t; Some d]
      | Err _ => Err (ShapeError "MultiHeadAttention")
      end
  | Add, [a; b] => merge a b
  | GlobalAvgPool1D, [[b; _; d]] => Ok [b; d]
  | _, _ => Err (ShapeError "call")
  end.

(** *** Building the graph *)

(** [layers.X(...)]: validate the arguments, allocate the layer. *)
Definition new_layer (c : layer_config) : M layer :=
  if valid_config c then (uid <- fresh ;; ret (mkLayer uid c))
  else raise ConfigError.

(** [layer(x)] *)
Definition call (l : layer) (x : KerasTensor) : M KerasTensor :=
  s <- lift (compute_output_shape (layer_cfg l) [shape x]) ;;
  ret (mkTensor s (NCall l (graph x))).

(** [layer(x, y)] (attention) and [layer([x, y])] (merge layers) *)
Definition call2 (l : layer) (x y : KerasTensor) : M KerasTensor :=
  s <- lift (compute_output_shape (layer_cfg l) [shape x; shape y]) ;;
  ret (mkTensor s (NCall2 l (graph x) (graph y))).

(** [layers.Input(shape=s)] *)
Definition Input (s : list Z) : M KerasTensor :=
  uid <- fresh ;;
  let sh := None :: map Some s in
  ret (mkTensor sh (NInput uid sh)).

(** [layers.add([x, y])] *)
Definition add (x y : KerasTensor) : M KerasTensor :=
  l <- new_layer Add ;; call2 l x y.

(** [tf.reshape(x, shape=target)] *)
Definition tf_reshape (x : KerasTensor) (target : list Z) : M KerasTensor :=
  s <- lift (reshape_shape (shape x) target) ;;
  ret (mkTensor s (NReshape (graph x) target)).

(** [tf.range(start=a, limit=b)] *)
Definition tf_range (a b : Z) : M KerasTensor :=
  if b <? a then raise (ShapeError "range")
  else ret (mkTensor [Some (b - a)] (NRange a b)).

(** [x + y] on tensors *)
Definition tf_plus (x y : KerasTensor) : M KerasTensor :=
  s <- lift (broadcast (shape x) (shape y)) ;;
  ret (mkTensor s (NPlus (graph x) (graph y))).

(** [tf.image.extract_patches(images, sizes, strides, rates, padding)] with
    unit rates: every window is flattened into the depth dimension. *)
Definition tf_image_extract_patches (images : KerasTensor)
    (sizes strides rates : Z * Z * Z * Z) (pad : padding) : M KerasTensor :=
  let '(_, kr, kc, _) := sizes in
  let '(_, sr, sc, _) := strides in
  match shape images with
  | [b; h; w; Some d] =>
      if (0 <? kr) && (0 <? kc) && (0 <? sr) && (0 <? sc) then
        h' <- lift (window "extract_patches" pad h kr sr) ;;
        w' <- lift (window "extract_patches" pad w kc sc) ;;
        ret (mkTensor [b; h'; w'; Some (kr * kc * d)]
               (NExtractPatches (graph images) sizes strides rates pad))
      else raise (ShapeError "extract_patches")
  | _ => raise (ShapeError "extract_patches")
  end.

End Keras.

Import Keras.

(** ** The notebook *)

(** *** Hyperparameters (module-level variables of the notebook) *)

Definition num_classes : Z := 100.
Definition input_shape : list Z := [32; 32; 3].
Definition image_size : Z * Z := (96, 96).
Definition patch_size : Z * Z := (8, 8).
Definition outer_block_embedding_dim : Z := 64.
Definition inner_block_embedding_dim : Z := 32.
Definition num_transformer_layer : Z := 5.
Definition outer_block_num_heads : Z := 4.
Definition inner_block_num_heads : Z := 2.
Definition mlp_ratio : Z := 4.
Definition attention_dropout : Q := 5 # 10.
Definition projection_dropout : Q := 5 # 10.
Definition first_stride : Z := 4.

(** Tuple unpacking of [x.shape]. *)
Definition unpack4 {A} (l : list A) : M (A * A * A * A) :=
  match l with
  | [a; b; c; d] => ret (a, b, c, d)
  | _ => raise UnpackError
  end.

Definition unpack3 {A} (l : list A) : M (A * A * A) :=
  match l with
  | [a; b; c] => ret (a, b, c)
  | _ => raise UnpackError
  end.

(** A dimension used as a Python integer inside a [shape=] argument. *)
Definition as_int (d : option Z) : M Z :=
  match d with
  | Some n => ret n
  | None => raise (ShapeError "reshape")
  end.

(** *** data_augmentation *)

Definition data_augmentation (inputs : KerasTensor) : M KerasTensor :=
  l <- new_layer (Rescaling (1 # 255)) ;;
  x <- call l inputs ;;
  l <- new_layer (Resizing (fst image_size) (snd image_size)) ;;
  x <- call l x ;;
  l <- new_layer (RandomFlip "horizontal") ;;
  x <- call l x ;;
  l <- new_layer (RandomRotation (1 # 10)) ;;
  x <- call l x ;;
  l <- new_layer (RandomContrast (1 # 10)) ;;
  x <- call l x ;;
  l <- new_layer (RandomZoom (2 # 10) (2 # 10)) ;;
  x <- call l x ;;
  ret x.

(** *** class PatchEncoder *)

Record PatchEncoder : Type := mkPatchEncoder {
  pe_uid : nat;
  pe_num_patches : Z;
  projection : layer;
  position_embedding : layer
}.

(** [PatchEncoder.__init__] *)
Definition PatchEncoder_init (num_patches projection_dim : Z) : M PatchEncoder :=
  uid <- fresh ;;
  proj <- new_layer (Dense projection_dim None) ;;
  pos <- new_layer (Embedding num_patches projection_dim) ;;
  ret (mkPatchEncoder uid num_patches proj pos).

(** [PatchEncoder.call]; the graph records the operations of the body. *)
Definition PatchEncoder_call (self : PatchEncoder) (patch : KerasTensor)
  : M KerasTensor :=
  positions <- tf_range 0 (pe_num_patches self) ;;
  projected <- call (projection self) patch ;;
  embedded <- call (position_embedding self) positions ;;
  encoded <- tf_plus projected embedded ;;
  ret encoded.

(** *** pixel_embed *)

Definition pixel_embed (x : KerasTensor) (image_size patch_size : Z * Z)
    (in_dim stride : Z) : M (KerasTensor * Z * (Z * Z)) :=
  '(_, channel, height, width) <- unpack4 (shape x) ;;
  n0 <- lift (Py.floordiv (fst image_size) (fst patch_size)) ;;
  n1 <- lift (Py.floordiv (snd image_size) (snd patch_size)) ;;
  let num_patches := n0 * n1 in
  ips0 <- lift (Py.ceil_truediv (fst patch_size) stride) ;;
  ips1 <- lift (Py.ceil_truediv (snd patch_size) stride) ;;
  let inner_patch_size := (ips0, ips1) in
  conv <- new_layer (Conv2D in_dim 7 stride SAME) ;;
  x <- call conv x ;;
  x <- tf_image_extract_patches x (1, ips0, ips1, 1) (1, ips0, ips1, 1)
         (1, 1, 1, 1) VALID ;;
  x <- tf_reshape x [-1; ips0 * ips1; in_dim] ;;
  enc <- PatchEncoder_init (ips0 * ips1) in_dim ;;
  x <- PatchEncoder_call enc x ;;
  ret (x, num_patches, inner_patch_size).

(** *** patch_embed *)

Definition patch_embed (pixel_embedding : KerasTensor)
    (num_patches outer_block_embedding_dim inner_block_embedding_dim
       num_pixels : Z) : M KerasTensor :=
  patch_embedding <- tf_reshape pixel_embedding
      [-1; num_patches; inner_block_embedding_dim * num_pixels] ;;
  l <- new_layer (LayerNormalization (1 # 100000)) ;;
  patch_embedding <- call l patch_embedding ;;
  l <- new_layer (Dense outer_block_embedding_dim None) ;;
  patch_embedding <- call l patch_embedding ;;
  l <- new_layer (LayerNormalization (1 # 100000)) ;;
  patch_embedding <- call l patch_embedding ;;
  enc <- PatchEncoder_init num_patches outer_block_embedding_dim ;;
  patch_embedding <- PatchEncoder_call enc patch_embedding ;;
  l <- new_layer (Dropout projection_dropout) ;;
  patch_embedding <- call l patch_embedding ;;
  ret patch_embedding.

(** *** mlp *)

(** The default value of [mlp]'s [drop_rate] parameter. *)
Definition mlp_drop_rate : Q := 2 # 10.

Definition mlp (x : KerasTensor) (hidden_dim output_dim : Z) (drop_rate : Q)
  : M KerasTensor :=
  l <- new_layer (Dense hidden_dim (Some gelu)) ;;
  x <- call l x ;;
  l <- new_layer (Dropout drop_rate) ;;
  x <- call l x ;;
  l <- new_layer (Dense output_dim None) ;;
  x <- call l x ;;
  l <- new_layer (Dropout drop_rate) ;;
  x <- call l x ;;
  ret x.

(** *** transformer_in_transformer_block *)

Definition transformer_in_transformer_block
    (pixel_embedding patch_embedding : KerasTensor)
    (out_embedding_dim in_embedding_dim num_pixels out_num_heads in_num_heads
       mlp_ratio : Z)
    (attention_dropout projection_dropout : Q)
  : M (KerasTensor * KerasTensor) :=
  (* inner transformer block *)
  let residual_in_1 := pixel_embedding in
  l <- new_layer (LayerNormalization (1 # 100000)) ;;
  pixel_embedding <- call l pixel_embedding ;;
  l <- new_layer (MultiHeadAttention in_num_heads in_embedding_dim
                    attention_dropout) ;;
  pixel_embedding <- call2 l pixel_embedding pixel_embedding ;;
  pixel_embedding <- add pixel_embedding residual_in_1 ;;
  let residual_in_2 := pixel_embedding in
  l <- new_layer (LayerNormalization (1 # 100000)) ;;
  pixel_embedding <- call l pixel_embedding ;;
  pixel_embedding <- mlp pixel_embedding (in_embedding_dim * mlp_ratio)
                       in_embedding_dim mlp_drop_rate ;;
  pixel_embedding <- add pixel_embedding residual_in_2 ;;
  (* outer transformer block *)
  '(_, num_patches, channel) <- unpack3 (shape patch_embedding) ;;
  (* fuse local and global information *)
  num_patches <- as_int num_patches ;;
  fused_embedding <- tf_reshape pixel_embedding
      [-1; num_patches; in_embedding_dim * num_pixels] ;;
  l <- new_layer (LayerNormalization (1 # 100000)) ;;
  fused_embedding <- call l fused_embedding ;;
  l <- new_layer (Dense out_embedding_dim None) ;;
  fused_embedding <- call l fused_embedding ;;
  patch_embedding <- add patch_embedding fused_embedding ;;
  let residual_out_1 := patch_embedding in
  l <- new_layer (LayerNormalization (1 # 100000)) ;;
  patch_embedding <- call l patch_embedding ;;
  l <- new_layer (MultiHeadAttention out_num_heads out_embedding_dim
                    attention_dropout) ;;
  patch_embedding <- call2 l patch_embedding patch_embedding ;;
  patch_embedding <- add patch_embedding residual_out_1 ;;
  let residual_out_2 := patch_embedding in
  l <- new_layer (LayerNormalization (1 # 100000)) ;;
  patch_embedding <- call l patch_embedding ;;
  patch_embedding <- mlp patch_embedding (out_embedding_dim * mlp_ratio)
                       out_embedding_dim mlp_drop_rate ;;
  patch_embedding <- add patch_embedding residual_out_2 ;;
  ret (pixel_embedding, patch_embedding).

(** *** get_model *)

Record Model : Type := mkModel { inputs : KerasTensor; outputs : KerasTensor }.

(** The body of the loop over [range(num_transformer_layer)]. *)
Definition block_step
    (outer_block_embedding_dim inner_block_embedding_dim num_pixels
       outer_block_num_heads inner_block_num_heads mlp_ratio : Z)
    (attention_dropout projection_dropout : Q)
    (st : KerasTensor * KerasTensor) : M (KerasTensor * KerasTensor) :=
  transformer_in_transformer_block (fst st) (snd st)
    outer_block_embedding_dim inner_block_embedding_dim num_pixels
    outer_block_num_heads inner_block_num_heads mlp_ratio
    attention_dropout projection_dropout.

Definition get_model (image_size patch_size : Z * Z)
    (outer_block_embedding_dim inner_block_embedding_dim num_transformer_layer
       outer_block_num_heads inner_block_num_heads mlp_ratio : Z)
    (attention_dropout projection_dropout : Q) (first_stride : Z) : M Model :=
  inputs <- Input input_shape ;;
  (* Image augment *)
  x <- data_augmentation inputs ;;
  (* extract pixel embedding *)
  '(pixel_embedding, num_patches, inner_patch_size) <-
     pixel_embed x image_size patch_size inner_block_embedding_dim
       first_stride ;;
  let num_pixels := fst inner_patch_size * snd inner_patch_size in
  (* extract patch embedding *)
  patch_embedding <- patch_embed pixel_embedding num_patches
      outer_block_embedding_dim inner_block_embedding_dim num_pixels ;;
  (* create multiple layers of the TNT block *)
  '(pixel_embedding, patch_embedding) <-
     for_range num_transformer_layer
       (block_step outer_block_embedding_dim inner_block_embedding_dim
          num_pixels outer_block_num_heads inner_block_num_heads mlp_ratio
          attention_dropout projection_dropout)
       (pixel_embedding, patch_embedding) ;;
  l <- new_layer (LayerNormalization (1 # 100000)) ;;
  patch_embedding <- call l patch_embedding ;;
  l <- new_layer GlobalAvgPool1D ;;
  x <- call l patch_embedding ;;
  l <- new_layer (Dense num_classes (Some softmax)) ;;
  outputs <- call l x ;;
  ret (mkModel inputs outputs).

(** [get_model()] with every argument at its default. *)
Definition get_model_default : M Model :=
  get_model image_size patch_size outer_block_embedding_dim
    inner_block_embedding_dim num_transformer_layer outer_block_num_heads
    inner_block_num_heads mlp_ratio attention_dropout projection_dropout
    first_stride.

(** ** The steps of a TNT block, named

    The block is one function in the notebook.  Its two halves are named
    here after the comments of the source ([# inner transformer block],
    [# outer transformer block]) so that statements can refer to them. *)

(** Lines [# inner transformer block] up to the second residual addition. *)
Definition inner_transformer_step (pixel_embedding : KerasTensor)
    (in_embedding_dim in_num_heads mlp_ratio : Z) (attention_dropout : Q)
  : M KerasTensor :=
  let residual_in_1 := pixel_embedding in
  l <- new_layer (LayerNormalization (1 # 100000)) ;;
  pixel_embedding <- call l pixel_embedding ;;
  l <- new_layer (MultiHeadAttention in_num_heads in_embedding_dim
                    attention_dropout) ;;
  pixel_embedding <- call2 l pixel_embedding pixel_embedding ;;
  pixel_embedding <- add pixel_embedding residual_in_1 ;;
  let residual_in_2 := pixel_embedding in
  l <- new_layer (LayerNormalization (1 # 100000)) ;;
  pixel_embedding <- call l pixel_embedding ;;
  pixel_embedding <- mlp pixel_embedding (in_embedding_dim * mlp_ratio)
                       in_embedding_dim mlp_drop_rate ;;
  pixel_embedding <- add pixel_embedding residual_in_2 ;;
  ret pixel_embedding.

(** Lines [# outer transformer block] to the end: fusion, then the outer
    transformer; it receives the refined pixel embedding. *)
Definition outer_transformer_step (pixel_embedding patch_embedding : KerasTensor)
    (out_embedding_dim in_embedding_dim num_pixels out_num_heads mlp_ratio : Z)
    (attention_dropout : Q) : M KerasTensor :=
  '(_, num_patches, channel) <- unpack3 (shape patch_embedding) ;;
  num_patches <- as_int num_patches ;;
  fused_embedding <- tf_reshape pixel_embedding
      [-1; num_patches; in_embedding_dim * num_pixels] ;;
  l <- new_layer (LayerNormalization (1 # 100000)) ;;
  fused_embedding <- call l fused_embedding ;;
  l <- new_layer (Dense out_embedding_dim None) ;;
  fused_embedding <- call l fused_embedding ;;
  patch_embedding <- add patch_embedding fused_embedding ;;
  let residual_out_1 := patch_embedding in
  l <- new_layer (LayerNormalization (1 # 100000)) ;;
  patch_embedding <- call l patch_embedding ;;
  l <- new_layer (MultiHeadAttention out_num_heads out_embedding_dim
                    attention_dropout) ;;
  patch_embedding <- call2 l patch_embedding patch_embedding ;;
  patch_embedding <- add patch_embedding residual_out_1 ;;
  let residual_out_2 := patch_embedding in
  l <- new_layer (LayerNormalization (1 # 100000)) ;;
  patch_embedding <- call l patch_embedding ;;
  patch_embedding <- mlp patch_embedding (out_embedding_dim * mlp_ratio)
                       out_embedding_dim mlp_drop_rate ;;
  patch_embedding <- add patch_embedding residual_out_2 ;;
  ret patch_embedding.

(** The two ends of [get_model], named: its lines before the loop over the
    blocks (input, augmentation, the two embedders), which give the loop
    its inputs, and its lines after the loop (normalization, pooling,
    softmax layer, model). *)
Definition get_model_embeddings (image_size patch_size : Z * Z)
    (outer_block_embedding_dim inner_block_embedding_dim first_stride : Z)
  : M (KerasTensor * KerasTensor * KerasTensor * Z) :=
  inputs <- Input input_shape ;;
  x <- data_augmentation inputs ;;
  '(pixel_embedding, num_patches, inner_patch_size) <-
     pixel_embed x image_size patch_size inner_block_embedding_dim
       first_stride ;;
  let num_pixels := fst inner_patch_size * snd inner_patch_size in
  patch_embedding <- patch_embed pixel_embedding num_patches
      outer_block_embedding_dim inner_block_embedding_dim num_pixels ;;
  ret (inputs, pixel_embedding, patch_embedding, num_pixels).

Definition classification_head (inputs patch_embedding : KerasTensor)
  : M Model :=
  l <- new_layer (LayerNormalization (1 # 100000)) ;;
  patch_embedding <- call l patch_embedding ;;
  l <- new_layer GlobalAvgPool1D ;;
  x <- call l patch_embedding ;;
  l <- new_layer (Dense num_classes (Some softmax)) ;;
  outputs <- call l x ;;
  ret (mkModel inputs outputs).

(** "Applying the single-block transform k times in sequence": the first
    [k - 1] applications, then one more. *)
Fixpoint sequentially {A} (k : nat) (f : A -> M A) (a : A) : M A :=
  match k with
  | O => ret a
  | S k' => a' <- sequentially k' f a ;; f a'
  end.

(** The Patch Embedder as the specification words it: fold, normalize,
    project, normalize, add the learned position table, dropout. *)
Definition patch_embed_as_specified (pixel_embedding : KerasTensor)
    (num_patches outer_block_embedding_dim inner_block_embedding_dim
       num_pixels : Z) : M KerasTensor :=
  patch_embedding <- tf_reshape pixel_embedding
      [-1; num_patches; inner_block_embedding_dim * num_pixels] ;;
  l <- new_layer (LayerNormalization (1 # 100000)) ;;
  patch_embedding <- call l patch_embedding ;;
  l <- new_layer (Dense outer_block_embedding_dim None) ;;
  patch_embedding <- call l patch_embedding ;;
  l <- new_layer (LayerNormalization (1 # 100000)) ;;
  patch_embedding <- call l patch_embedding ;;
  table <- new_layer (Embedding num_patches outer_block_embedding_dim) ;;
  positions <- tf_range 0 num_patches ;;
  embedded <- call table positions ;;
  patch_embedding <- tf_plus patch_embedding embedded ;;
  l <- new_layer (Dropout projection_dropout) ;;
  patch_embedding <- call l patch_embedding ;;
  ret patch_embedding.

(** ** What a graph computes

    A run of the model gives every node a value.  A value is seen as the
    list of its slices along the leading axis; what a layer does to them is
    the framework's business and a parameter here. *)

Section Semantics.

Variable slice : Type.

Definition value : Type := list slice.

Variable sem_layer : layer -> list value -> value.
Variable sem_reshape : list Z -> value -> value.
Variable sem_extract_patches : Z * Z * Z * Z -> Z * Z * Z * Z -> value -> value.
Variable sem_range : Z -> Z -> value.
Variable sem_plus : value -> value -> value.

(** The values fed to the [Input] placeholders. *)
Variable feed : nat -> value.

Fixpoint eval (n : node) : value :=
  match n with
  | NInput uid _ => feed uid
  | NCall l x => sem_layer l [eval x]
  | NCall2 l x y => sem_layer l [eval x; eval y]
  | NReshape x target => sem_reshape target (eval x)
  | NExtractPatches x sizes strides _ _ =>
      sem_extract_patches sizes strides (eval x)
  | NRange a b => sem_range a b
  | NPlus x y => sem_plus (eval x) (eval y)
  end.

(** Two values agree on slice [i]. *)
Definition agree_at (i : nat) (x y : value) : Prop :=
  nth_error x i = nth_error y i.

End Semantics.

Arguments agree_at {slice} i x y.

(** Layers that treat the slices of the leading axis independently: of one
    input, and of two inputs. *)
Definition batchwise1 (c : layer_config) : bool :=
  match c with
  | Dense _ _ | LayerNormalization _ | Dropout _ => true
  | _ => false
  end.

Definition batchwise2 (c : layer_config) : bool :=
  match c with
  | MultiHeadAttention _ _ _ | Add => true
  | _ => false
  end.

(** The graph [n] is built over [x] with batchwise layers only. *)
Inductive built_over (x : node) : node -> Prop :=
| bo_self : built_over x x
| bo_call l a :
    batchwise1 (layer_cfg l) = true -> built_over x a ->
    built_over x (NCall l a)
| bo_call2 l a b :
    batchwise2 (layer_cfg l) = true -> built_over x a -> built_over x b ->
    built_over x (NCall2 l a b).

(** The layers a graph uses. *)
Fixpoint uses (l : layer) (n : node) : Prop :=
  match n with
  | NCall l' x => l = l' \/ uses l x
  | NCall2 l' x y => l = l' \/ uses l x \/ uses l y
  | NReshape x _ => uses l x
  | NExtractPatches x _ _ _ _ => uses l x
  | NPlus x y => uses l x \/ uses l y
  | NInput _ _ | NRange _ _ => False
  end.

(** A layer that is not a dropout at a rate other than [mlp]'s default. *)
Definition default_rate_only (l : layer) : Prop :=
  forall rate, layer_cfg l = Dropout rate -> rate = mlp_drop_rate.

(** The graph [patch_embed] builds from state [s] over the node [x]. *)
Definition patch_embed_graph (s : nat) (x : node)
    (num_patches outer_dim inner_dim num_pixels : Z) : node :=
  NCall (mkLayer (6 + s) (Dropout projection_dropout))
    (NPlus
       (NCall (mkLayer (4 + s) (Dense outer_dim None))
          (NCall (mkLayer (2 + s) (LayerNormalization (1 # 100000)))
             (NCall (mkLayer (1 + s) (Dense outer_dim None))
                (NCall (mkLayer s (LayerNormalization (1 # 100000)))
                   (NReshape x [-1; num_patches; inner_dim * num_pixels])))))
       (NCall (mkLayer (5 + s) (Embedding num_patches outer_dim))
          (NRange 0 num_patches))).

(** The static shape of the output of a built model. *)
Definition output_shape (built : result (Model * nat)) : result TensorShape :=
  match built with
  | Ok (m, _) => Ok (shape (outputs m))
  | Err e => Err e
  end.

(** A layer that, if a dropout, has [mlp]'s default rate or the module-level
    [projection_dropout]. *)
Definition module_rate_only (l : layer) : Prop :=
  forall rate, layer_cfg l = Dropout rate ->
               rate = mlp_drop_rate \/ rate = projection_dropout.

(** *** A small framework to run examples on

    Slices are integers; every layer acts slice by slice. *)

Module Toy.

Definition zip_add (x y : list Z) : list Z :=
  map (fun p => fst p + snd p) (combine x y).

Definition sem_layer (l : layer) (xs : list (list Z)) : list Z :=
  match layer_cfg l, xs with
  | Dense u _, [x] => map (fun z => 2 * z + u) x
  | MultiHeadAttention h _ _, [q; v] => map (fun z => h * z) (zip_add q v)
  | Add, [x; y] => zip_add x y
  | Embedding _ o, [x] => map (fun z => z + o) x
  | _, [x] => x
  | _, [x; y] => zip_add x y
  | _, _ => []
  end.

Definition sem_reshape (_ : list Z) (x : list Z) : list Z := x.
Definition sem_extract_patches (_ _ : Z * Z * Z * Z) (x : list Z) : list Z := x.
Definition sem_range (a b : Z) : list Z :=
  map (fun k => a + Z.of_nat k) (seq 0 (Z.to_nat (b - a))).
Definition sem_plus (x y : list Z) : list Z := zip_add x y.

Definition run (feed : nat -> list Z) (n : node) : list Z :=
  eval Z sem_layer sem_reshape sem_extract_patches sem_range sem_plus feed n.

End Toy.

(** Tensors used in examples. *)
Definition images (batch : option Z) (h w c : Z) : KerasTensor :=
  let s := [batch; Some h; Some w; Some c] in mkTensor s (NInput 0 s).

Definition tokens (uid : nat) (lead : option Z) (n d : Z) : KerasTensor :=
  let s := [lead; Some n; Some d] in mkTensor s (NInput uid s).

(** * Properties *)

(** ** The build monad *)

Lemma bind_ok_inv {A B} (m : M A) (k : A -> M B) s r :
  bind m k s = Ok r -> exists a s1, m s = Ok (a, s1) /\ k a s1 = Ok r.
Proof.
  unfold bind. destruct (m s) as [[a s1]|e]; [|discriminate].
  intros H. now exists a, s1.
Qed.

Lemma bind_ok {A B} (m : M A) (k : A -> M B) s a s1 :
  m s = Ok (a, s1) -> bind m k s = k a s1.
Proof. unfold bind. now intros ->. Qed.

Lemma bind_err {A B} (m : M A) (k : A -> M B) s e :
  m s = Err e -> bind m k s = Err e.
Proof. unfold bind. now intros ->. Qed.

Lemma bind_assoc {A B C} (m : M A) (f : A -> M B) (g : B -> M C) s :
  bind (bind m f) g s = bind m (fun a => bind (f a) g) s.
Proof. unfold bind. now destruct (m s) as [[a s1]|e]. Qed.

Lemma bind_ret_r {A} (m : M A) s : bind m ret s = m s.
Proof. unfold bind, ret. now destruct (m s) as [[a s1]|e]. Qed.

Lemma bind_ext {A B} (m : M A) (f g : A -> M B) s :
  (forall a s1, f a s1 = g a s1) -> bind m f s = bind m g s.
Proof. intros H. unfold bind. now destruct (m s) as [[a s1]|e]. Qed.

Lemma ret_inv {A} (a : A) s r : ret a s = Ok r -> r = (a, s).
Proof. unfold ret. congruence. Qed.

Lemma lift_inv {A} (x : result A) s a s' :
  lift x s = Ok (a, s') -> x = Ok a /\ s' = s.
Proof. unfold lift. destruct x; [|discriminate]. intros [= -> ->]. auto. Qed.

Lemma fresh_inv s n s' : fresh s = Ok (n, s') -> n = s /\ s' = S s.
Proof. unfold fresh. intros [= <- <-]. auto. Qed.

(** ** Inversion of the framework calls *)

Lemma new_layer_inv c s l s' :
  new_layer c s = Ok (l, s') ->
  valid_config c = true /\ l = mkLayer s c /\ s' = S s.
Proof.
  unfold new_layer. destruct (valid_config c); [|discriminate].
  unfold bind, fresh, ret. intros [= <- <-]. auto.
Qed.

Lemma call_inv l x s t s' :
  call l x s = Ok (t, s') ->
  exists sh, compute_output_shape (layer_cfg l) [shape x] = Ok sh /\
             t = mkTensor sh (NCall l (graph x)) /\ s' = s.
Proof.
  unfold call, bind, lift, ret.
  destruct (compute_output_shape _ _) as [sh|e]; [|discriminate].
  intros [= <- <-]. eauto.
Qed.

Lemma call2_inv l x y s t s' :
  call2 l x y s = Ok (t, s') ->
  exists sh, compute_output_shape (layer_cfg l) [shape x; shape y] = Ok sh /\
             t = mkTensor sh (NCall2 l (graph x) (graph y)) /\ s' = s.
Proof.
  unfold call2, bind, lift, ret.
  destruct (compute_output_shape _ _) as [sh|e]; [|discriminate].
  intros [= <- <-]. eauto.
Qed.

Lemma add_inv x y s t s' :
  add x y s = Ok (t, s') ->
  exists sh, merge (shape x) (shape y) = Ok sh /\
             t = mkTensor sh (NCall2 (mkLayer s Add) (graph x) (graph y)) /\
             s' = S s.
Proof.
  unfold add. intros H. apply bind_ok_inv in H as (l & s1 & Hl & H).
  apply new_layer_inv in Hl as (_ & -> & ->).
  apply call2_inv in H as (sh & Hsh & -> & ->). eauto.
Qed.

Lemma tf_reshape_inv x target s t s' :
  tf_reshape x target s = Ok (t, s') ->
  exists sh, reshape_shape (shape x) target = Ok sh /\
             t = mkTensor sh (NReshape (graph x) target) /\ s' = s.
Proof.
  unfold tf_reshape, bind, lift, ret.
  destruct (reshape_shape _ _) as [sh|e]; [|discriminate].
  intros [= <- <-]. eauto.
Qed.

Lemma tf_range_inv a b s t s' :
  tf_range a b s = Ok (t, s') ->
  a <= b /\ t = mkTensor [Some (b - a)] (NRange a b) /\ s' = s.
Proof.
  unfold tf_range, raise, ret. destruct (Z.ltb_spec b a); [discriminate|].
  intros [= <- <-]. auto.
Qed.

Lemma tf_plus_inv x y s t s' :
  tf_plus x y s = Ok (t, s') ->
  exists sh, broadcast (shape x) (shape y) = Ok sh /\
             t = mkTensor sh (NPlus (graph x) (graph y)) /\ s' = s.
Proof.
  unfold tf_plus, bind, lift, ret.
  destruct (broadcast _ _) as [sh|e]; [|discriminate].
  intros [= <- <-]. eauto.
Qed.

Lemma unpack4_inv {A} (l : list A) s r s' :
  unpack4 l s = Ok (r, s') ->
  exists a b c d, l = [a; b; c; d] /\ r = (a, b, c, d) /\ s' = s.
Proof.
  destruct l as [|a [|b [|c [|d [|]]]]]; try discriminate.
  unfold unpack4, ret. intros [= <- <-]. now exists a, b, c, d.
Qed.

Lemma unpack3_inv {A} (l : list A) s r s' :
  unpack3 l s = Ok (r, s') ->
  exists a b c, l = [a; b; c] /\ r = (a, b, c) /\ s' = s.
Proof.
  destruct l as [|a [|b [|c [|]]]]; try discriminate.
  unfold unpack3, ret. intros [= <- <-]. now exists a, b, c.
Qed.

Lemma as_int_inv d s n s' : as_int d s = Ok (n, s') -> d = Some n /\ s' = s.
Proof. destruct d; [|discriminate]. unfold as_int, ret. intros [= <- <-]. auto. Qed.

Lemma floordiv_inv a b q :
  Py.floordiv a b = Ok q -> b <> 0 /\ q = a / b.
Proof.
  unfold Py.floordiv. destruct (Z.eqb_spec b 0); [discriminate|].
  intros [= <-]. auto.
Qed.

Lemma ceil_truediv_inv a b q :
  Py.ceil_truediv a b = Ok q -> b <> 0 /\ q = - ((- a) / b).
Proof.
  unfold Py.ceil_truediv. destruct (Z.eqb_spec b 0); [discriminate|].
  intros [= <-]. auto.
Qed.

Lemma tf_image_extract_patches_inv x kr kc sr sc rates pad s t s' a0 a1 b0 b1 :
  tf_image_extract_patches x (a0, kr, kc, a1) (b0, sr, sc, b1) rates pad s =
    Ok (t, s') ->
  exists b h w d h' w',
    shape x = [b; h; w; Some d] /\
    window "extract_patches" pad h kr sr = Ok h' /\
    window "extract_patches" pad w kc sc = Ok w' /\
    t = mkTensor [b; h'; w'; Some (kr * kc * d)]
          (NExtractPatches (graph x) (a0, kr, kc, a1) (b0, sr, sc, b1) rates
             pad) /\
    s' = s.
Proof.
  unfold tf_image_extract_patches.
  destruct (shape x) as [|b [|h [|w [|[d|] [|]]]]]; try discriminate.
  destruct (_ && _); [|discriminate].
  intros H.
  apply bind_ok_inv in H as (h' & s1 & Hh & H).
  apply bind_ok_inv in H as (w' & s2 & Hw & H).
  apply lift_inv in Hh as (Hh & ->). apply lift_inv in Hw as (Hw & ->).
  apply ret_inv in H. injection H as -> ->. eauto 12.
Qed.

(** One step of the inversion of a successful build. *)
Ltac split_pairs H :=
  repeat match type of H with
         | context [match ?v with pair _ _ => _ end] => is_var v; destruct v
         end.

Ltac inv_ok :=
  match goal with
  | H : bind _ _ _ = Ok _ |- _ =>
      let a := fresh "a" in let s := fresh "s" in let Hm := fresh "Hm" in
      apply bind_ok_inv in H as (a & s & Hm & H); cbv beta in H;
      split_pairs H
  | H : ret _ _ = Ok _ |- _ => apply ret_inv in H; inversion H; subst; clear H
  | H : lift _ _ = Ok _ |- _ =>
      let E := fresh "E" in apply lift_inv in H as (E & ->)
  | H : new_layer _ _ = Ok _ |- _ =>
      let V := fresh "V" in apply new_layer_inv in H as (V & -> & ->)
  | H : fresh _ = Ok _ |- _ => apply fresh_inv in H as (-> & ->)
  | H : call _ _ _ = Ok _ |- _ =>
      let sh := fresh "sh" in let E := fresh "E" in
      apply call_inv in H as (sh & E & -> & ->)
  | H : call2 _ _ _ _ = Ok _ |- _ =>
      let sh := fresh "sh" in let E := fresh "E" in
      apply call2_inv in H as (sh & E & -> & ->)
  | H : add _ _ _ = Ok _ |- _ =>
      let sh := fresh "sh" in let E := fresh "E" in
      apply add_inv in H as (sh & E & -> & ->)
  | H : tf_reshape _ _ _ = Ok _ |- _ =>
      let sh := fresh "sh" in let E := fresh "E" in
      apply tf_reshape_inv in H as (sh & E & -> & ->)
  | H : tf_range _ _ _ = Ok _ |- _ =>
      let E := fresh "E" in apply tf_range_inv in H as (E & -> & ->)
  | H : tf_plus _ _ _ = Ok _ |- _ =>
      let sh := fresh "sh" in let E := fresh "E" in
      apply tf_plus_inv in H as (sh & E & -> & ->)
  | H : unpack4 _ _ = Ok _ |- _ =>
      let E := fresh "E" in
      apply unpack4_inv in H as (? & ? & ? & ? & E & [= <- <- <- <-] & ->)
  | H : unpack3 _ _ = Ok _ |- _ =>
      let E := fresh "E" in
      apply unpack3_inv in H as (? & ? & ? & E & [= <- <- <-] & ->)
  | H : as_int _ _ = Ok _ |- _ =>
      let E := fresh "E" in apply as_int_inv in H as (E & ->)
  | H : tf_image_extract_patches _ (_, _, _, _) (_, _, _, _) _ _ _ = Ok _ |- _ =>
      let E := fresh "E" in let Wh := fresh "Wh" in let Ww := fresh "Ww" in
      apply tf_image_extract_patches_inv in H
        as (? & ? & ? & ? & ? & ? & E & Wh & Ww & -> & ->)
  | H : PatchEncoder_init _ _ _ = Ok _ |- _ => unfold PatchEncoder_init in H
  | H : PatchEncoder_call _ _ _ = Ok _ |- _ => unfold PatchEncoder_call in H
  | H : mlp _ _ _ _ _ = Ok _ |- _ => unfold mlp in H
  | H : Py.floordiv _ _ = Ok _ |- _ =>
      let E := fresh "E" in apply floordiv_inv in H as (E & ->)
  | H : Py.ceil_truediv _ _ = Ok _ |- _ =>
      let E := fresh "E" in apply ceil_truediv_inv in H as (E & ->)
  end.

(** ** Shape rules used below *)

Lemma requested_dim d :
  0 <= d -> (d =? -1) = false /\ (d <? 0) = false.
Proof. intros. split; [apply Z.eqb_neq|apply Z.ltb_ge]; lia. Qed.

Lemma reshape3_inv input a b sh :
  reshape_shape input [-1; a; b] = Ok sh ->
  exists lead, sh = [lead; Some a; Some b] /\ 0 <= a /\ 0 <= b.
Proof.
  unfold reshape_shape. cbn [requested]. rewrite Z.eqb_refl.
  destruct (Z.eqb_spec b (-1)) as [->|Hb].
  - destruct (Z.eqb_spec a (-1)); [|destruct (a <? 0)]; discriminate.
  - destruct (Z.ltb_spec b 0); [destruct (a =? -1); discriminate|].
    destruct (Z.eqb_spec a (-1)) as [->|Ha]; [discriminate|].
    destruct (Z.ltb_spec a 0); [discriminate|].
    cbn [unknown_dims known_elems].
    destruct (unknown_count input) as [|[|]],
             (unknown_count [None; Some a; Some b]) as [|?];
      repeat match goal with
             | |- context [if ?c then _ else _] => destruct c
             end;
      try discriminate; cbn [fill_unknown]; intros [= <-]; eauto.
Qed.

Lemma broadcast_table lead a d :
  broadcast [lead; Some a; Some d] [Some a; Some d] = Ok [lead; Some a; Some d].
Proof.
  unfold broadcast. cbn [rev app broadcast_rev broadcast_dim].
  now rewrite !Z.eqb_refl.
Qed.


Lemma project_last3 op a b c u :
  project_last op [a; b; Some c] u = Ok [a; b; Some u].
Proof. now destruct a, b. Qed.

Lemma dense_shape3 u act a b c :
  compute_output_shape (Dense u act) [[a; b; Some c]] = Ok [a; b; Some u].
Proof. apply project_last3. Qed.

Lemma layernorm_shape3 eps a b c :
  compute_output_shape (LayerNormalization eps) [[a; b; Some c]] =
    Ok [a; b; Some c].
Proof.
  cbn [compute_output_shape]. now rewrite project_last3.
Qed.

Lemma merge_batch_same a : merge_batch a a = Ok a.
Proof. destruct a as [x|]; cbn; [now rewrite Z.eqb_refl|reflexivity]. Qed.

Lemma attention_shape3 h k r a b c :
  compute_output_shape (MultiHeadAttention h k r)
    [[a; b; Some c]; [a; b; Some c]] = Ok [a; b; Some c].
Proof. cbn [compute_output_shape]. now rewrite merge_batch_same. Qed.

Lemma merge_dim_same a : merge_dim a a = Ok a.
Proof.
  destruct a as [x|]; cbn; [|reflexivity].
  destruct (x =? 1); [reflexivity|]. now rewrite Z.eqb_refl.
Qed.

Lemma merge_same3 a b c : merge [a; b; c] [a; b; c] = Ok [a; b; c].
Proof.
  cbn [merge merge_dims]. now rewrite merge_batch_same, !merge_dim_same.
Qed.

Ltac inv_all :=
  repeat (inv_ok;
          cbn [shape graph layer_cfg layer_uid projection position_embedding
               pe_num_patches fst snd] in * ).

(** Everything a successful call of [pixel_embed] tells. *)
Lemma pixel_embed_inv x image_size patch_size in_dim stride s t n ips s1 :
  pixel_embed x image_size patch_size in_dim stride s = Ok (t, n, ips, s1) ->
  fst patch_size <> 0 /\ snd patch_size <> 0 /\ stride <> 0 /\
  n = (fst image_size / fst patch_size) * (snd image_size / snd patch_size) /\
  ips = (- (- fst patch_size / stride), - (- snd patch_size / stride)) /\
  exists lead, shape t = [lead; Some (fst ips * snd ips); Some in_dim].
Proof.
  intros H. unfold pixel_embed in H. inv_all.
  repeat (split; [assumption || reflexivity|]).
  match goal with
  | K : reshape_shape _ _ = Ok _ |- _ =>
      apply reshape3_inv in K as (lead & -> & Ha & Hb)
  end.
  exists lead.
  match goal with
  | K : compute_output_shape (Dense _ _) _ = Ok _ |- _ =>
      rewrite dense_shape3 in K; injection K as <-
  end.
  match goal with
  | K : compute_output_shape (Embedding _ _) _ = Ok _ |- _ =>
      cbn [compute_output_shape app] in K; injection K as <-
  end.
  match goal with
  | K : broadcast _ _ = Ok _ |- _ =>
      cbn [app] in K; rewrite Z.sub_0_r, broadcast_table in K;
      now injection K as <-
  end.
Qed.

(** ** Pixel Embedder *)

(** C1. When the patch height and width divide the image height and width,
    the [num_patches] that [pixel_embed] returns is the exact quotient
    [(image_h / patch_h) * (image_w / patch_w)]: the patches tile the image.
    It does not depend on the tensor, the stride or the inner dimension: a
    second call that differs in those returns the same number. *)
Theorem pixel_embed_num_patches
    (x x' : KerasTensor) (image_size patch_size : Z * Z)
    (in_dim in_dim' stride stride' : Z) (s s' s1 s1' : nat)
    (t t' : KerasTensor) (n n' : Z) (ips ips' : Z * Z) :
  fst image_size mod fst patch_size = 0 ->
  snd image_size mod snd patch_size = 0 ->
  pixel_embed x image_size patch_size in_dim stride s = Ok (t, n, ips, s1) ->
  pixel_embed x' image_size patch_size in_dim' stride' s' =
    Ok (t', n', ips', s1') ->
  n = (fst image_size / fst patch_size) * (snd image_size / snd patch_size) /\
  n * (fst patch_size * snd patch_size) = fst image_size * snd image_size /\
  n' = n.
Proof.
  intros Hh Hw H H'.
  apply pixel_embed_inv in H as (Hp0 & Hp1 & _ & -> & _).
  apply pixel_embed_inv in H' as (_ & _ & _ & -> & _).
  repeat split.
  apply Z.div_exact in Hh, Hw; trivial.
  destruct image_size as [ih iw], patch_size as [ph pw]; cbn [fst snd] in *.
  set (a := ih / ph) in *. set (b := iw / pw) in *. nia.
Qed.

(** C1, at the notebook's own sizes: 96x96 images in 8x8 patches. *)
Lemma pixel_embed_num_patches_witness :
  exists t n ips s1,
    pixel_embed (images None 96 96 3) image_size patch_size 32 4 0%nat =
      Ok (t, n, ips, s1) /\
    n = (96 / 8) * (96 / 8) /\ n * (8 * 8) = 96 * 96.
Proof.
  destruct (pixel_embed (images None 96 96 3) image_size patch_size 32 4 0%nat)
    as [[[[t n] ips] s1]|e] eqn:E; [|vm_compute in E; discriminate].
  destruct (pixel_embed (images (Some 2) 96 96 3) image_size patch_size 48 2
              7%nat) as [[[[t' n'] ips'] s1']|e] eqn:E';
    [|vm_compute in E'; discriminate].
  destruct (pixel_embed_num_patches
              (images None 96 96 3) (images (Some 2) 96 96 3)
              image_size patch_size 32 48 4 2 0%nat 7%nat s1 s1' t t' n n'
              ips ips' eq_refl eq_refl E E') as (H1 & H2 & H3).
  exists t, n, ips, s1. split; [reflexivity|]. split; [exact H1|exact H2].
Defined.

(** ** Running a build forward *)

Lemma bind_ret_l {A B} (a : A) (k : A -> M B) s : bind (ret a) k s = k a s.
Proof. reflexivity. Qed.

Lemma bind_lift {A B} (r : result A) a (k : A -> M B) s :
  r = Ok a -> bind (lift r) k s = k a s.
Proof. now intros ->. Qed.

Lemma bind_fresh {B} (k : nat -> M B) s : bind fresh k s = k s (S s).
Proof. reflexivity. Qed.

Lemma bind_new_layer {B} c (k : layer -> M B) s :
  valid_config c = true -> bind (new_layer c) k s = k (mkLayer s c) (S s).
Proof. unfold new_layer. now intros ->. Qed.

Lemma bind_call {B} l x sh (k : KerasTensor -> M B) s :
  compute_output_shape (layer_cfg l) [shape x] = Ok sh ->
  bind (call l x) k s = k (mkTensor sh (NCall l (graph x))) s.
Proof. unfold call, bind, lift. now intros ->. Qed.

Lemma bind_call2 {B} l x y sh (k : KerasTensor -> M B) s :
  compute_output_shape (layer_cfg l) [shape x; shape y] = Ok sh ->
  bind (call2 l x y) k s = k (mkTensor sh (NCall2 l (graph x) (graph y))) s.
Proof. unfold call2, bind, lift. now intros ->. Qed.

Lemma bind_add {B} x y sh (k : KerasTensor -> M B) s :
  merge (shape x) (shape y) = Ok sh ->
  bind (add x y) k s =
    k (mkTensor sh (NCall2 (mkLayer s Add) (graph x) (graph y))) (S s).
Proof.
  intros H. unfold add. rewrite bind_assoc, bind_new_layer by reflexivity.
  now rewrite bind_call2 with (sh := sh).
Qed.

Lemma bind_tf_reshape {B} x target sh (k : KerasTensor -> M B) s :
  reshape_shape (shape x) target = Ok sh ->
  bind (tf_reshape x target) k s = k (mkTensor sh (NReshape (graph x) target)) s.
Proof. unfold tf_reshape, bind, lift. now intros ->. Qed.

Lemma bind_tf_range {B} a b (k : KerasTensor -> M B) s :
  a <= b ->
  bind (tf_range a b) k s = k (mkTensor [Some (b - a)] (NRange a b)) s.
Proof.
  intros H. unfold tf_range, bind. now destruct (Z.ltb_spec b a); [lia|].
Qed.

Lemma bind_tf_plus {B} x y sh (k : KerasTensor -> M B) s :
  broadcast (shape x) (shape y) = Ok sh ->
  bind (tf_plus x y) k s = k (mkTensor sh (NPlus (graph x) (graph y))) s.
Proof. unfold tf_plus, bind, lift. now intros ->. Qed.

Lemma valid_dense u act : 0 < u -> valid_config (Dense u act) = true.
Proof. intros. now apply Z.ltb_lt. Qed.

Lemma valid_embedding n d : 0 < n -> 0 < d -> valid_config (Embedding n d) = true.
Proof. intros. cbn. apply andb_true_iff. split; now apply Z.ltb_lt. Qed.

Lemma valid_attention h k r :
  0 < h -> 0 < k -> rate_ok r = true ->
  valid_config (MultiHeadAttention h k r) = true.
Proof.
  intros Hh Hk Hr. cbn. rewrite Hr.
  apply Z.ltb_lt in Hh, Hk. now rewrite Hh, Hk.
Qed.

(** [tf.reshape(x, (-1, a, d))]: the leading dimension is inferred from a
    fully known input and stays unknown otherwise. *)
Lemma requested3 a d :
  0 <= a -> 0 <= d -> requested [-1; a; d] = Ok [None; Some a; Some d].
Proof.
  intros Ha Hd. cbn [requested].
  destruct (requested_dim a Ha) as [-> ->].
  destruct (requested_dim d Hd) as [-> ->]. reflexivity.
Qed.

Lemma reshape3_known input k a d :
  unknown_dims input = O -> 0 < a -> 0 < d ->
  known_elems input = k * (a * d) ->
  reshape_shape input [-1; a; d] = Ok [Some k; Some a; Some d].
Proof.
  intros Hu Ha Hd Hk. unfold reshape_shape.
  rewrite requested3 by lia.
  assert (Ui : unknown_count input = O)
    by (unfold unknown_count; rewrite Hu; now destruct (_ =? 0)).
  assert (Uo : unknown_count [None; Some a; Some d] = 1%nat).
  { unfold unknown_count. cbn [known_elems unknown_dims].
    now destruct (Z.eqb_spec (a * (d * 1)) 0); [nia|]. }
  rewrite Ui, Uo.
  cbn [unknown_dims known_elems fill_unknown]. rewrite Hk, Z.mul_1_r.
  destruct (Z.ltb_spec 0 (a * d)); [|nia].
  rewrite Z.mod_mul, Z.div_mul by lia. reflexivity.
Qed.

Lemma reshape3_unknown input n a d :
  unknown_dims input = S n -> known_elems input <> 0 -> 0 <= a -> 0 <= d ->
  reshape_shape input [-1; a; d] = Ok [None; Some a; Some d].
Proof.
  intros Hu Hk Ha Hd. unfold reshape_shape.
  rewrite requested3 by lia.
  assert (Ui : unknown_count input = S n).
  { unfold unknown_count. now apply Z.eqb_neq in Hk as ->. }
  rewrite Ui. unfold unknown_count. cbn [unknown_dims].
  destruct (Z.eqb_spec (known_elems [None; Some a; Some d]) 0) as [E|E];
    [|now destruct n].
  rewrite E, Z.mod_0_l, andb_false_r by assumption. now destruct n.
Qed.

(** The position encoder on a rank-3 tensor whose middle extent is the
    table's length. *)
Lemma bind_PatchEncoder {B} n d x lead c (k : KerasTensor -> M B) s :
  0 < n -> 0 < d -> shape x = [lead; Some n; Some c] ->
  bind (enc <- PatchEncoder_init n d ;; PatchEncoder_call enc x) k s =
    k (mkTensor [lead; Some n; Some d]
         (NPlus (NCall (mkLayer (S s) (Dense d None)) (graph x))
                (NCall (mkLayer (S (S s)) (Embedding n d)) (NRange 0 n))))
      (S (S (S s))).
Proof.
  intros Hn Hd Hx. unfold PatchEncoder_init, PatchEncoder_call.
  rewrite !bind_assoc, bind_fresh.
  rewrite bind_assoc, bind_new_layer by now apply valid_dense.
  rewrite bind_assoc, bind_new_layer by now apply valid_embedding.
  rewrite bind_ret_l. cbn [pe_num_patches projection position_embedding].
  rewrite bind_assoc, bind_tf_range by lia.
  rewrite bind_assoc.
  rewrite bind_call with (sh := [lead; Some n; Some d])
    by (rewrite Hx; apply dense_shape3).
  rewrite bind_assoc.
  rewrite bind_call with (sh := [Some n; Some d])
    by (cbn; now rewrite Z.sub_0_r).
  rewrite bind_assoc.
  rewrite bind_tf_plus with (sh := [lead; Some n; Some d])
    by apply broadcast_table.
  now rewrite bind_ret_l.
Qed.

Lemma bind_extract_patches {B} x b h w d h' w' kr kc rates pad
    (k : KerasTensor -> M B) s :
  shape x = [b; h; w; Some d] -> 0 < kr -> 0 < kc ->
  window "extract_patches" pad h kr kr = Ok h' ->
  window "extract_patches" pad w kc kc = Ok w' ->
  bind (tf_image_extract_patches x (1, kr, kc, 1) (1, kr, kc, 1) rates pad) k s
  = k (mkTensor [b; h'; w'; Some (kr * kc * d)]
         (NExtractPatches (graph x) (1, kr, kc, 1) (1, kr, kc, 1) rates pad)) s.
Proof.
  intros Hx Hr Hc Hh Hw. unfold tf_image_extract_patches. rewrite Hx.
  apply Z.ltb_lt in Hr, Hc. rewrite Hr, Hc. cbn [andb].
  rewrite bind_assoc, (bind_lift _ h') by assumption.
  rewrite bind_assoc, (bind_lift _ w') by assumption.
  now rewrite bind_ret_l.
Qed.

Lemma ceiling_bounds a b :
  0 < b -> b * (- (- a / b) - 1) < a <= b * - (- a / b).
Proof.
  intros Hb.
  pose proof (Z.div_mod (- a) b ltac:(lia)) as E.
  pose proof (Z.mod_pos_bound (- a) b Hb) as R.
  nia.
Qed.

(** The scenario of the specification, for any batch and inner dimension:
    32x32x3 images, 8x8 patches, stride 4. *)
Lemma pixel_embed_32 (b : option Z) g in_dim s :
  0 < in_dim ->
  exists t s1,
    pixel_embed (mkTensor [b; Some 32; Some 32; Some 3] g) (32, 32) (8, 8)
      in_dim 4 s = Ok (t, 16, (2, 2), s1) /\
    shape t = [option_map (fun k => k * 16) b; Some 4; Some in_dim].
Proof.
  intros Hd. unfold pixel_embed. cbn [shape unpack4 fst snd].
  rewrite bind_ret_l.
  do 2 (rewrite (bind_lift _ 4) by reflexivity).
  do 2 (rewrite (bind_lift _ 2) by reflexivity).
  rewrite bind_new_layer by (cbn; now apply Z.ltb_lt in Hd as ->).
  rewrite bind_call with (sh := [b; Some 8; Some 8; Some in_dim])
    by reflexivity.
  rewrite bind_extract_patches
    with (b := b) (h := Some 8) (w := Some 8) (d := in_dim)
         (h' := Some 4) (w' := Some 4) by (reflexivity || lia).
  change (2 * 2) with 4. cbn [graph].
  assert (R : reshape_shape [b; Some 4; Some 4; Some (4 * in_dim)]
                [-1; 4; in_dim]
              = Ok [option_map (fun k => k * 16) b; Some 4; Some in_dim]).
  { destruct b as [k|]; cbn [option_map].
    - apply reshape3_known; cbn [unknown_dims known_elems]; lia.
    - apply reshape3_unknown with (n := O);
      [reflexivity|cbn [known_elems]; nia|nia|nia]. }
  rewrite bind_tf_reshape
    with (sh := [option_map (fun k => k * 16) b; Some 4; Some in_dim])
    by exact R.
  rewrite <- bind_assoc.
  rewrite bind_PatchEncoder
    with (lead := option_map (fun k => k * 16) b) (c := in_dim)
    by (reflexivity || lia).
  eexists _, _. split; reflexivity.
Qed.

(** C2. Whatever the batch, the tensor that [pixel_embed] returns has rank 3
    and its last dimension is the inner dimension; its middle dimension is
    the product of the inner patch geometry, which is the ceiling of patch
    size over stride.  On 32x32x3 images with 8x8 patches and stride 4 the
    shape is [(batch * 16, 4, inner_dim)], so [(2 * 16, 4, inner_dim)] for a
    batch of 2, and the leading dimension is unknown when the batch is. *)
Theorem pixel_embed_shape :
  (forall x image_size patch_size in_dim stride s t n ips s1,
     pixel_embed x image_size patch_size in_dim stride s = Ok (t, n, ips, s1) ->
     (exists lead, shape t = [lead; Some (fst ips * snd ips); Some in_dim]) /\
     List.length (shape t) = 3%nat /\
     Py.ceil_truediv (fst patch_size) stride = Ok (fst ips) /\
     Py.ceil_truediv (snd patch_size) stride = Ok (snd ips) /\
     (0 < stride ->
      stride * (fst ips - 1) < fst patch_size <= stride * fst ips /\
      stride * (snd ips - 1) < snd patch_size <= stride * snd ips)) /\
  (forall (batch : option Z) g in_dim s,
     0 < in_dim ->
     exists t s1,
       pixel_embed (mkTensor [batch; Some 32; Some 32; Some 3] g)
         (32, 32) (8, 8) in_dim 4 s = Ok (t, 16, (2, 2), s1) /\
       shape t = [option_map (fun k => k * 16) batch; Some 4; Some in_dim] /\
       (batch = Some 2 -> shape t = [Some (2 * 16); Some 4; Some in_dim])).
Proof.
  split.
  - intros x image_size patch_size in_dim stride s t n ips s1 H.
    apply pixel_embed_inv in H as (_ & _ & Hs & _ & -> & lead & Hsh).
    cbn [fst snd] in *. split; [eauto|]. split; [now rewrite Hsh|].
    unfold Py.ceil_truediv. apply Z.eqb_neq in Hs as ->.
    repeat split; try apply ceiling_bounds; assumption.
  - intros batch g in_dim s Hd.
    destruct (pixel_embed_32 batch g in_dim s Hd) as (t & s1 & H & Hsh).
    exists t, s1. repeat split; trivial. now intros ->.
Qed.

(** C2 on a batch of 2 synthetic 32x32x3 images with inner dimension 48. *)
Lemma pixel_embed_shape_witness :
  exists t s1,
    pixel_embed (images (Some 2) 32 32 3) (32, 32) (8, 8) 48 4 0%nat =
      Ok (t, 16, (2, 2), s1) /\
    shape t = [Some 32; Some 4; Some 48] /\ List.length (shape t) = 3%nat.
Proof.
  destruct (proj2 pixel_embed_shape (Some 2) (NInput 0 [Some 2; Some 32; Some 32; Some 3]) 48 0%nat eq_refl)
    as (t & s1 & H & Hsh & H2).
  exists t, s1. split; [exact H|]. split; [exact (H2 eq_refl)|].
  now destruct (proj1 pixel_embed_shape _ _ _ _ _ _ _ _ _ _ H) as (_ & L & _).
Defined.

(** ** TNT block *)

Ltac peel :=
  repeat (rewrite ?bind_assoc;
          first [ reflexivity
                | rewrite bind_ret_l
                | apply bind_ext; intros ? ?;
                  repeat match goal with
                         | p : (_ * _)%type |- _ => destruct p
                         end ]).

(** The block is its inner step followed by its outer step. *)
Lemma block_split px pa E D P oh ih r ad pd s :
  transformer_in_transformer_block px pa E D P oh ih r ad pd s =
  (px' <- inner_transformer_step px D ih r ad ;;
   pa' <- outer_transformer_step px' pa E D P oh r ad ;;
   ret (px', pa')) s.
Proof.
  unfold transformer_in_transformer_block, inner_transformer_step. peel.
  unfold outer_transformer_step. peel.
Qed.

Lemma rate_ok_iff r : rate_ok r = true <-> (0 <= r /\ r <= 1)%Q.
Proof.
  unfold rate_ok. rewrite andb_true_iff, !Qle_bool_iff. reflexivity.
Qed.

Lemma mlp_ok x a b c hidden out r s :
  shape x = [a; b; Some c] -> 0 < hidden -> 0 < out -> rate_ok r = true ->
  exists g, mlp x hidden out r s =
            Ok (mkTensor [a; b; Some out] g, S (S (S (S s)))).
Proof.
  intros Hx Hh Ho Hr. unfold mlp.
  rewrite bind_new_layer by now apply valid_dense.
  rewrite bind_call with (sh := [a; b; Some hidden])
    by (rewrite Hx; apply dense_shape3).
  rewrite bind_new_layer by exact Hr.
  rewrite bind_call with (sh := [a; b; Some hidden]) by reflexivity.
  rewrite bind_new_layer by now apply valid_dense.
  rewrite bind_call with (sh := [a; b; Some out]) by apply dense_shape3.
  rewrite bind_new_layer by exact Hr.
  rewrite bind_call with (sh := [a; b; Some out]) by reflexivity.
  eexists. reflexivity.
Qed.

Lemma inner_transformer_step_ok px lead P D ih ratio ad s :
  shape px = [lead; Some P; Some D] ->
  0 < D -> 0 < ih -> 0 < ratio -> rate_ok ad = true ->
  exists g s1, inner_transformer_step px D ih ratio ad s =
               Ok (mkTensor [lead; Some P; Some D] g, s1).
Proof.
  intros Hx HD Hih Hr Had. unfold inner_transformer_step.
  rewrite bind_new_layer by reflexivity.
  rewrite bind_call with (sh := [lead; Some P; Some D])
    by (rewrite Hx; apply layernorm_shape3).
  rewrite bind_new_layer by now apply valid_attention.
  rewrite bind_call2 with (sh := [lead; Some P; Some D])
    by apply attention_shape3.
  rewrite bind_add with (sh := [lead; Some P; Some D])
    by (rewrite Hx; apply merge_same3).
  rewrite bind_new_layer by reflexivity.
  rewrite bind_call with (sh := [lead; Some P; Some D])
    by apply layernorm_shape3.
  match goal with
  | |- context [bind (mlp ?x ?h ?o ?r) _ ?s] =>
      destruct (mlp_ok x lead (Some P) D h o r s) as [g Hg];
      [reflexivity | nia | lia | reflexivity |];
      rewrite (bind_ok _ _ _ _ _ Hg)
  end.
  rewrite bind_add with (sh := [lead; Some P; Some D]) by apply merge_same3.
  eexists _, _. reflexivity.
Qed.

Lemma outer_transformer_step_ok px pa batch N P D E oh ratio ad s :
  shape px = [option_map (fun k => k * N) batch; Some P; Some D] ->
  shape pa = [batch; Some N; Some E] ->
  0 < N -> 0 < P -> 0 < D -> 0 < E -> 0 < oh -> 0 < ratio ->
  rate_ok ad = true ->
  exists g s1, outer_transformer_step px pa E D P oh ratio ad s =
               Ok (mkTensor [batch; Some N; Some E] g, s1).
Proof.
  intros Hpx Hpa HN HP HD HE Hoh Hr Had. unfold outer_transformer_step.
  rewrite Hpa. cbn [unpack3]. rewrite bind_ret_l. cbn beta iota.
  cbn [as_int]. rewrite bind_ret_l.
  assert (R : reshape_shape (shape px) [-1; N; D * P]
              = Ok [batch; Some N; Some (D * P)]).
  { rewrite Hpx. destruct batch as [k|]; cbn [option_map].
    - apply reshape3_known; cbn [unknown_dims known_elems]; nia.
    - apply reshape3_unknown with (n := O);
      [reflexivity|cbn [known_elems]; nia|nia|nia]. }
  rewrite bind_tf_reshape with (sh := [batch; Some N; Some (D * P)])
    by exact R.
  rewrite bind_new_layer by reflexivity.
  rewrite bind_call with (sh := [batch; Some N; Some (D * P)])
    by apply layernorm_shape3.
  rewrite bind_new_layer by now apply valid_dense.
  rewrite bind_call with (sh := [batch; Some N; Some E])
    by apply dense_shape3.
  rewrite bind_add with (sh := [batch; Some N; Some E])
    by (rewrite Hpa; apply merge_same3).
  rewrite bind_new_layer by reflexivity.
  rewrite bind_call with (sh := [batch; Some N; Some E])
    by apply layernorm_shape3.
  rewrite bind_new_layer by now apply valid_attention.
  rewrite bind_call2 with (sh := [batch; Some N; Some E])
    by apply attention_shape3.
  rewrite bind_add with (sh := [batch; Some N; Some E])
    by apply merge_same3.
  rewrite bind_new_layer by reflexivity.
  rewrite bind_call with (sh := [batch; Some N; Some E])
    by apply layernorm_shape3.
  match goal with
  | |- context [bind (mlp ?x ?h ?o ?r) _ ?s] =>
      destruct (mlp_ok x batch (Some N) E h o r s) as [g Hg];
      [reflexivity | nia | lia | reflexivity |];
      rewrite (bind_ok _ _ _ _ _ Hg)
  end.
  rewrite bind_add with (sh := [batch; Some N; Some E]) by apply merge_same3.
  eexists _, _. reflexivity.
Qed.

(** C3. On a pixel embedding of shape [(batch * num_patches, num_pixels,
    inner_dim)] and a patch embedding of shape [(batch, num_patches,
    outer_dim)] the block returns, and both tensors it returns have the
    shapes of its inputs.  The batch may be unknown. *)
Theorem block_preserves_shapes
    (batch : option Z) (num_patches num_pixels inner_dim outer_dim : Z)
    (out_num_heads in_num_heads mlp_ratio : Z)
    (attention_dropout projection_dropout : Q)
    (pixel_embedding patch_embedding : KerasTensor) (s : nat) :
  0 < num_patches -> 0 < num_pixels -> 0 < inner_dim -> 0 < outer_dim ->
  0 < out_num_heads -> 0 < in_num_heads -> 0 < mlp_ratio ->
  (0 <= attention_dropout /\ attention_dropout <= 1)%Q ->
  shape pixel_embedding =
    [option_map (fun k => k * num_patches) batch; Some num_pixels;
     Some inner_dim] ->
  shape patch_embedding = [batch; Some num_patches; Some outer_dim] ->
  exists pixel' patch' s',
    transformer_in_transformer_block pixel_embedding patch_embedding
      outer_dim inner_dim num_pixels out_num_heads in_num_heads mlp_ratio
      attention_dropout projection_dropout s = Ok (pixel', patch', s') /\
    shape pixel' = shape pixel_embedding /\
    shape patch' = shape patch_embedding.
Proof.
  intros HN HP HD HE Hoh Hih Hr Had Hpx Hpa.
  apply rate_ok_iff in Had. rewrite block_split.
  destruct (inner_transformer_step_ok pixel_embedding _ _ _ in_num_heads
              mlp_ratio attention_dropout s Hpx) as (g & s1 & Hin); trivial.
  rewrite (bind_ok _ _ _ _ _ Hin).
  destruct (outer_transformer_step_ok
              (mkTensor (shape pixel_embedding) g) patch_embedding batch
              num_patches num_pixels inner_dim outer_dim out_num_heads
              mlp_ratio attention_dropout s1) as (g' & s2 & Hout); trivial.
  rewrite Hpx in Hout |- *. rewrite (bind_ok _ _ _ _ _ Hout).
  eexists _, _, _. split; [reflexivity|]. now rewrite Hpa.
Qed.

(** C3 on the three configurations of the specification. *)
Lemma block_preserves_shapes_witness :
  (exists px' pa' s',
     transformer_in_transformer_block
       (tokens 0 None 4 32) (tokens 1 None 144 64) 64 32 4 4 2 4
       attention_dropout projection_dropout 2%nat = Ok (px', pa', s') /\
     shape px' = [None; Some 4; Some 32] /\
     shape pa' = [None; Some 144; Some 64]) /\
  (exists px' pa' s',
     transformer_in_transformer_block
       (tokens 0 (Some 72) 16 16) (tokens 1 (Some 2) 36 32) 32 16 16 4 2 4
       attention_dropout projection_dropout 2%nat = Ok (px', pa', s') /\
     shape px' = [Some 72; Some 16; Some 16] /\
     shape pa' = [Some 2; Some 36; Some 32]) /\
  (exists px' pa' s',
     transformer_in_transformer_block
       (tokens 0 (Some 64) 9 8) (tokens 1 (Some 1) 64 24) 24 8 9 3 1 2
       attention_dropout projection_dropout 2%nat = Ok (px', pa', s') /\
     shape px' = [Some 64; Some 9; Some 8] /\
     shape pa' = [Some 1; Some 64; Some 24]).
Proof.
  assert (Hr : (0 <= attention_dropout /\ attention_dropout <= 1)%Q)
    by (split; discriminate).
  repeat split.
  - exact (block_preserves_shapes None 144 4 32 64 4 2 4 attention_dropout
             projection_dropout (tokens 0 None 4 32) (tokens 1 None 144 64)
             2%nat eq_refl eq_refl eq_refl eq_refl eq_refl eq_refl eq_refl Hr
             eq_refl eq_refl).
  - exact (block_preserves_shapes (Some 2) 36 16 16 32 4 2 4 attention_dropout
             projection_dropout (tokens 0 (Some 72) 16 16)
             (tokens 1 (Some 2) 36 32)
             2%nat eq_refl eq_refl eq_refl eq_refl eq_refl eq_refl eq_refl Hr
             eq_refl eq_refl).
  - exact (block_preserves_shapes (Some 1) 64 9 8 24 3 1 2 attention_dropout
             projection_dropout (tokens 0 (Some 64) 9 8)
             (tokens 1 (Some 1) 64 24)
             2%nat eq_refl eq_refl eq_refl eq_refl eq_refl eq_refl eq_refl Hr
             eq_refl eq_refl).
Defined.

(** C10. The pixel embedding a block returns is the result of its inner
    transformer step, unchanged: fusion and the outer transformer only read
    it.  So it is the same whatever patch embedding, outer dimension, outer
    head count and pixel count the block is called with. *)
Theorem block_pixel_is_inner_step
    (px pa : KerasTensor) (E D P oh ih r : Z) (ad pd : Q) (s : nat)
    (px' pa' : KerasTensor) (s' : nat) :
  transformer_in_transformer_block px pa E D P oh ih r ad pd s =
    Ok (px', pa', s') ->
  (exists s1,
     inner_transformer_step px D ih r ad s = Ok (px', s1) /\
     outer_transformer_step px' pa E D P oh r ad s1 = Ok (pa', s')) /\
  (forall pa2 E2 P2 oh2 pd2 px2 pa2' s2,
     transformer_in_transformer_block px pa2 E2 D P2 oh2 ih r ad pd2 s =
       Ok (px2, pa2', s2) ->
     px2 = px').
Proof.
  intros H. rewrite block_split in H.
  apply bind_ok_inv in H as (p & s1 & Hin & H).
  apply bind_ok_inv in H as (q & s2 & Hout & H).
  apply ret_inv in H. injection H as <- <- <-.
  split; [eauto|].
  intros pa2 E2 P2 oh2 pd2 px2 pa2' s3 H2. rewrite block_split in H2.
  apply bind_ok_inv in H2 as (p2 & s4 & Hin2 & H2).
  apply bind_ok_inv in H2 as (q2 & s5 & _ & H2).
  apply ret_inv in H2. injection H2 as <- _ _. congruence.
Qed.

(** C10 on the notebook's first block. *)
Lemma block_pixel_is_inner_step_witness :
  exists px' pa' s' s1,
    transformer_in_transformer_block
      (tokens 0 None 4 32) (tokens 1 None 144 64) 64 32 4 4 2 4
      attention_dropout projection_dropout 2%nat = Ok (px', pa', s') /\
    inner_transformer_step (tokens 0 None 4 32) 32 2 4 attention_dropout
      2%nat = Ok (px', s1).
Proof.
  destruct (transformer_in_transformer_block
      (tokens 0 None 4 32) (tokens 1 None 144 64) 64 32 4 4 2 4
      attention_dropout projection_dropout 2%nat)
    as [[[px' pa'] s']|e] eqn:E; [|vm_compute in E; discriminate].
  destruct (block_pixel_is_inner_step _ _ _ _ _ _ _ _ _ _ _ _ _ _ E)
    as ((s1 & Hin & _) & _).
  exists px', pa', s', s1. split; [reflexivity|exact Hin].
Defined.

(** ** Stacking blocks *)

Lemma iterate_snoc {A} (f : A -> M A) k a s :
  iterate (S k) f a s = bind (iterate k f a) f s.
Proof.
  revert a s. induction k as [|k IH]; intros a s.
  - cbn [iterate]. now rewrite bind_ret_r, bind_ret_l.
  - change (iterate (S (S k)) f a s)
      with (bind (f a) (iterate (S k) f) s).
    rewrite (bind_ext _ _ (fun a' => bind (iterate k f a') f)) by apply IH.
    now rewrite <- bind_assoc.
Qed.

Lemma iterate_sequentially {A} (f : A -> M A) k a s :
  iterate k f a s = sequentially k f a s.
Proof.
  revert a s. induction k as [|k IH]; intros a s; [reflexivity|].
  rewrite iterate_snoc. cbn [sequentially]. unfold bind. now rewrite IH.
Qed.

(** [get_model] is its embeddings, its loop over the blocks, its head. *)
Lemma get_model_split isz psz E D L oh ih r ad pd stride s :
  get_model isz psz E D L oh ih r ad pd stride s =
  ('(inputs, px, pa, num_pixels) <- get_model_embeddings isz psz E D stride ;;
   '(px', pa') <-
      for_range L (block_step E D num_pixels oh ih r ad pd) (px, pa) ;;
   classification_head inputs pa') s.
Proof.
  unfold get_model, get_model_embeddings. peel.
Qed.

(** C4. The model [get_model] builds with [k] blocks is the model obtained
    by applying the single-block transform
    [transformer_in_transformer_block] [k] times in sequence to the pair of
    embeddings, each application on the pair the previous one returned and
    creating its own layers from the state the previous one left, and then
    the classification head on the last patch embedding.  With two blocks
    it is two calls of the block, the second on the pair the first
    returns. *)
Theorem block_stack_is_sequential_application
    (isz psz : Z * Z) (E D oh ih r : Z) (ad pd : Q) (stride : Z) :
  (forall (k : nat) s,
     get_model isz psz E D (Z.of_nat k) oh ih r ad pd stride s =
     ('(inputs, px, pa, num_pixels) <-
         get_model_embeddings isz psz E D stride ;;
      '(px', pa') <-
         sequentially k
           (fun st => transformer_in_transformer_block (fst st) (snd st)
                        E D num_pixels oh ih r ad pd)
           (px, pa) ;;
      classification_head inputs pa') s) /\
  (forall s,
     get_model isz psz E D 2 oh ih r ad pd stride s =
     ('(inputs, px, pa, num_pixels) <-
         get_model_embeddings isz psz E D stride ;;
      '(px1, pa1) <-
         transformer_in_transformer_block px pa E D num_pixels oh ih r ad pd ;;
      '(px2, pa2) <-
         transformer_in_transformer_block px1 pa1 E D num_pixels oh ih r ad
           pd ;;
      classification_head inputs pa2) s).
Proof.
  split.
  - intros k s. rewrite get_model_split.
    apply bind_ext. intros [[[inputs px] pa] num_pixels] s1.
    unfold for_range. rewrite Nat2Z.id. unfold bind.
    now rewrite iterate_sequentially.
  - intros s. rewrite get_model_split.
    apply bind_ext. intros [[[inputs px] pa] num_pixels] s1.
    unfold for_range. change (Z.to_nat 2) with 2%nat. cbn [iterate].
    unfold block_step at 1. cbn [fst snd].
    rewrite bind_assoc. apply bind_ext. intros [px1 pa1] s2.
    rewrite bind_assoc. unfold block_step. cbn [fst snd].
    apply bind_ext. intros [px2 pa2] s3. now rewrite bind_ret_l.
Qed.

(** A successful block is a successful inner step followed by a successful
    outer step on its result. *)
Lemma block_ok_inv px pa E D P oh ih r ad pd s px' pa' s' :
  transformer_in_transformer_block px pa E D P oh ih r ad pd s =
    Ok (px', pa', s') ->
  exists s1,
    inner_transformer_step px D ih r ad s = Ok (px', s1) /\
    outer_transformer_step px' pa E D P oh r ad s1 = Ok (pa', s').
Proof.
  intros H. rewrite block_split in H.
  apply bind_ok_inv in H as (p & s1 & Hin & H).
  apply bind_ok_inv in H as (q & s2 & Hout & H).
  apply ret_inv in H. injection H as <- <- <-. eauto.
Qed.

(** ** The layers a block creates *)

Ltac solve_uses :=
  cbn [uses graph] in *;
  repeat match goal with
         | U : _ \/ _ |- _ => destruct U as [U|U]
         | U : False |- _ => destruct U
         end;
  try (subst; right; intros ? [=]; congruence);
  auto.

Lemma inner_transformer_step_uses px D ih r ad s px' s1 l :
  inner_transformer_step px D ih r ad s = Ok (px', s1) ->
  uses l (graph px') -> uses l (graph px) \/ default_rate_only l.
Proof.
  intros H U. unfold inner_transformer_step in H. inv_all. solve_uses.
Qed.

Lemma outer_transformer_step_uses px pa E D P oh r ad s pa' s1 l :
  outer_transformer_step px pa E D P oh r ad s = Ok (pa', s1) ->
  uses l (graph pa') ->
  (uses l (graph px) \/ uses l (graph pa)) \/ default_rate_only l.
Proof.
  intros H U. unfold outer_transformer_step in H. inv_all. solve_uses.
Qed.

(** C9. The block does not look at its [projection_dropout] argument: two
    calls that differ only there build the same pair of tensors from the
    same state (or raise the same exception).  Every dropout layer a block
    adds to the graph has [mlp]'s default rate. *)
Theorem block_ignores_projection_dropout
    (px pa : KerasTensor) (E D P oh ih r : Z) (ad : Q) (a b : Q) (s : nat) :
  transformer_in_transformer_block px pa E D P oh ih r ad a s =
  transformer_in_transformer_block px pa E D P oh ih r ad b s /\
  (forall px' pa' s' l,
     transformer_in_transformer_block px pa E D P oh ih r ad a s =
       Ok (px', pa', s') ->
     uses l (graph px') \/ uses l (graph pa') ->
     (uses l (graph px) \/ uses l (graph pa)) \/ default_rate_only l).
Proof.
  split; [reflexivity|].
  intros px' pa' s' l H U.
  apply block_ok_inv in H as (s1 & Hin & Hout).
  destruct U as [U|U].
  - destruct (inner_transformer_step_uses _ _ _ _ _ _ _ _ _ Hin U); auto.
  - destruct (outer_transformer_step_uses _ _ _ _ _ _ _ _ _ _ _ _ Hout U)
      as [[U'|U']|U']; auto.
    destruct (inner_transformer_step_uses _ _ _ _ _ _ _ _ _ Hin U'); auto.
Qed.

(** C9 on the notebook's first block, at rates 0.5 and 0.9. *)
Lemma block_ignores_projection_dropout_witness :
  exists px' pa' s',
    transformer_in_transformer_block
      (tokens 0 None 4 32) (tokens 1 None 144 64) 64 32 4 4 2 4
      attention_dropout (5 # 10) 2%nat = Ok (px', pa', s') /\
    transformer_in_transformer_block
      (tokens 0 None 4 32) (tokens 1 None 144 64) 64 32 4 4 2 4
      attention_dropout (9 # 10) 2%nat = Ok (px', pa', s') /\
    (forall l, uses l (graph px') \/ uses l (graph pa') ->
               default_rate_only l).
Proof.
  destruct (transformer_in_transformer_block
      (tokens 0 None 4 32) (tokens 1 None 144 64) 64 32 4 4 2 4
      attention_dropout (5 # 10) 2%nat)
    as [[[px' pa'] s']|e] eqn:E; [|vm_compute in E; discriminate].
  destruct (block_ignores_projection_dropout
              (tokens 0 None 4 32) (tokens 1 None 144 64) 64 32 4 4 2 4
              attention_dropout (5 # 10) (9 # 10) 2%nat) as [Heq Huses].
  exists px', pa', s'. split; [reflexivity|]. split.
  - rewrite <- Heq. exact E.
  - intros l U. destruct (Huses px' pa' s' l E U) as [[[]|[]]|Hl].
    exact Hl.
Defined.

(** ** Patch Embedder *)

(** C6, as the code has it.  When [patch_embed] returns, its result is built
    by: fold the pixel vectors of a patch into one vector of size
    [inner_dim * num_pixels], normalize, project to [outer_dim], normalize,
    project to [outer_dim] once more (the projection of [PatchEncoder]), add
    the learned position table to that projection, apply dropout.  The
    result has shape [(lead, num_patches, outer_dim)]. *)
Theorem patch_embed_steps
    (px : KerasTensor) (num_patches outer_dim inner_dim num_pixels : Z)
    (s : nat) (t : KerasTensor) (s1 : nat) :
  patch_embed px num_patches outer_dim inner_dim num_pixels s = Ok (t, s1) ->
  graph t =
    patch_embed_graph s (graph px) num_patches outer_dim inner_dim num_pixels /\
  (exists lead, shape t = [lead; Some num_patches; Some outer_dim]) /\
  s1 = (7 + s)%nat.
Proof.
  intros H. unfold patch_embed in H. inv_all.
  match goal with
  | K : reshape_shape _ _ = Ok _ |- _ =>
      apply reshape3_inv in K as (lead & -> & Ha & Hb)
  end.
  repeat match goal with
         | K : compute_output_shape (LayerNormalization _) _ = Ok _ |- _ =>
             rewrite layernorm_shape3 in K; injection K as <-
         | K : compute_output_shape (Dense _ _) _ = Ok _ |- _ =>
             rewrite dense_shape3 in K; injection K as <-
         | K : compute_output_shape (Embedding _ _) _ = Ok _ |- _ =>
             cbn [compute_output_shape app] in K; injection K as <-
         | K : broadcast _ _ = Ok _ |- _ =>
             rewrite Z.sub_0_r, broadcast_table in K; injection K as <-
         | K : compute_output_shape (Dropout _) _ = Ok _ |- _ =>
             cbn [compute_output_shape] in K; injection K as <-
         end.
  split; [reflexivity|]. split; [eauto|reflexivity].
Qed.

(** C6 on the notebook's sizes: the pixel embedding of 96x96 images. *)
Lemma patch_embed_steps_witness :
  exists t s1,
    patch_embed (tokens 0 None 4 32) 144 64 32 4 1%nat = Ok (t, s1) /\
    graph t = patch_embed_graph 1 (graph (tokens 0 None 4 32)) 144 64 32 4 /\
    shape t = [None; Some 144; Some 64].
Proof.
  destruct (patch_embed (tokens 0 None 4 32) 144 64 32 4 1%nat)
    as [[t s1]|e] eqn:E; [|vm_compute in E; discriminate].
  destruct (patch_embed_steps _ _ _ _ _ _ _ _ E) as (Hg & _ & _).
  exists t, s1. split; [reflexivity|]. split; [exact Hg|].
  vm_compute in E. now injection E as <- <-.
Defined.

(** C6 as stated fails: on the notebook's sizes the code and the sequence
    of the specification build different graphs, the operand of the
    position addition being a second projection and not the normalization;
    run on a framework whose Dense layer is not the identity, the two
    graphs give different values. *)
Lemma patch_embed_not_as_specified :
  exists t t' s1 s1',
    patch_embed (tokens 0 None 4 32) 144 64 32 4 1%nat = Ok (t, s1) /\
    patch_embed_as_specified (tokens 0 None 4 32) 144 64 32 4 1%nat =
      Ok (t', s1') /\
    graph t <> graph t' /\
    Toy.run (fun _ => [1; 2; 3]) (graph t) <>
    Toy.run (fun _ => [1; 2; 3]) (graph t').
Proof.
  destruct (patch_embed (tokens 0 None 4 32) 144 64 32 4 1%nat)
    as [[t s1]|e] eqn:E; [|vm_compute in E; discriminate].
  destruct (patch_embed_as_specified (tokens 0 None 4 32) 144 64 32 4 1%nat)
    as [[t' s1']|e] eqn:E'; [|vm_compute in E'; discriminate].
  exists t, t', s1, s1'. split; [reflexivity|]. split; [reflexivity|].
  vm_compute in E, E'. injection E as <- <-. injection E' as <- <-.
  split; vm_compute; discriminate.
Qed.

(** ** Locality of the inner transformer *)

Lemma inner_transformer_step_built_over px D ih r ad s px' s1 :
  inner_transformer_step px D ih r ad s = Ok (px', s1) ->
  built_over (graph px) (graph px').
Proof.
  intros H. unfold inner_transformer_step in H. inv_all.
  repeat first [ apply bo_self
               | apply bo_call; [reflexivity|]
               | apply bo_call2; [reflexivity| |] ].
Qed.

Section Locality.

Variable slice : Type.
Variable sem_layer : layer -> list (value slice) -> value slice.
Variable sem_reshape : list Z -> value slice -> value slice.
Variable sem_extract_patches :
  Z * Z * Z * Z -> Z * Z * Z * Z -> value slice -> value slice.
Variable sem_range : Z -> Z -> value slice.
Variable sem_plus : value slice -> value slice -> value slice.

Local Notation "'run' feed" :=
  (eval slice sem_layer sem_reshape sem_extract_patches sem_range sem_plus
     feed) (at level 10, feed at level 9).

(** What the framework promises of a batchwise layer: the output has the
    leading extent of its inputs, and its slice [i] is computed from the
    slices [i] of the inputs. *)
Hypothesis length_call : forall l x,
  batchwise1 (layer_cfg l) = true ->
  List.length (sem_layer l [x]) = List.length x.
Hypothesis length_call2 : forall l x y,
  batchwise2 (layer_cfg l) = true -> List.length x = List.length y ->
  List.length (sem_layer l [x; y]) = List.length x.
Hypothesis local_call : forall l i x x',
  batchwise1 (layer_cfg l) = true -> List.length x = List.length x' ->
  agree_at i x x' -> agree_at i (sem_layer l [x]) (sem_layer l [x']).
Hypothesis local_call2 : forall l i x x' y y',
  batchwise2 (layer_cfg l) = true ->
  List.length x = List.length y -> List.length x' = List.length y' ->
  List.length x = List.length x' ->
  agree_at i x x' -> agree_at i y y' ->
  agree_at i (sem_layer l [x; y]) (sem_layer l [x'; y']).

Lemma built_over_local x n feed feed' i :
  built_over x n ->
  List.length (run feed x) = List.length (run feed' x) ->
  agree_at i (run feed x) (run feed' x) ->
  List.length (run feed n) = List.length (run feed x) /\
  List.length (run feed' n) = List.length (run feed' x) /\
  agree_at i (run feed n) (run feed' n).
Proof.
  intros B L A. induction B as [|l a Hl Ba IHa|l a b Hl Ba IHa Bb IHb].
  - auto.
  - destruct IHa as (La & La' & Aa).
    cbn [eval].
    rewrite !length_call by assumption.
    repeat split; trivial. apply local_call; trivial. congruence.
  - destruct IHa as (La & La' & Aa). destruct IHb as (Lb & Lb' & Ab).
    cbn [eval].
    rewrite !length_call2 by congruence.
    repeat split; trivial. apply local_call2; trivial; congruence.
Qed.

(** C7. The refined pixel embedding of a patch depends on that patch's own
    pixel tokens only.  Take two runs of the graph a block returns, on
    any two feeds: if the pixel embeddings given to the block have the
    same leading extent and the same slice [i] (the tokens of patch [i]),
    then the refined pixel embeddings have the same slice [i], whatever
    the other patches, the other images of the batch and the patch
    embedding are in the two runs. *)
Theorem inner_attention_is_per_patch
    (px pa : KerasTensor) (E D P oh ih r : Z) (ad pd : Q) (s : nat)
    (px' pa' : KerasTensor) (s' : nat) (feed feed' : nat -> value slice)
    (i : nat) :
  transformer_in_transformer_block px pa E D P oh ih r ad pd s =
    Ok (px', pa', s') ->
  List.length (run feed (graph px)) = List.length (run feed' (graph px)) ->
  agree_at i (run feed (graph px)) (run feed' (graph px)) ->
  agree_at i (run feed (graph px')) (run feed' (graph px')).
Proof.
  intros H L A. apply block_ok_inv in H as (s1 & Hin & _).
  apply inner_transformer_step_built_over in Hin.
  now apply (built_over_local _ _ feed feed' i Hin L A).
Qed.

End Locality.

(** The toy framework keeps the promises of batchwise layers. *)

Lemma nth_error_combine_both {A B} (x : list A) (y : list B) i :
  nth_error (combine x y) i =
  match nth_error x i, nth_error y i with
  | Some a, Some b => Some (a, b)
  | _, _ => None
  end.
Proof.
  revert y i. induction x as [|a x IH]; intros [|b y] [|i]; cbn; trivial.
  now destruct (nth_error x i).
Qed.

Lemma zip_add_length x y :
  List.length x = List.length y -> List.length (Toy.zip_add x y) = List.length x.
Proof.
  intros H. unfold Toy.zip_add. rewrite length_map, length_combine, <- H.
  apply Nat.min_id.
Qed.

Lemma zip_add_local i x x' y y' :
  agree_at i x x' -> agree_at i y y' ->
  agree_at i (Toy.zip_add x y) (Toy.zip_add x' y').
Proof.
  unfold agree_at, Toy.zip_add. intros Hx Hy.
  now rewrite !nth_error_map, !nth_error_combine_both, Hx, Hy.
Qed.

Lemma toy_length_call l x :
  batchwise1 (layer_cfg l) = true ->
  List.length (Toy.sem_layer l [x]) = List.length x.
Proof.
  unfold Toy.sem_layer. destruct (layer_cfg l); try discriminate; intros _;
    trivial. apply length_map.
Qed.

Lemma toy_length_call2 l x y :
  batchwise2 (layer_cfg l) = true -> List.length x = List.length y ->
  List.length (Toy.sem_layer l [x; y]) = List.length x.
Proof.
  unfold Toy.sem_layer. destruct (layer_cfg l); try discriminate; intros _ H.
  - rewrite length_map. now apply zip_add_length.
  - now apply zip_add_length.
Qed.

Lemma toy_local_call l i x x' :
  batchwise1 (layer_cfg l) = true -> List.length x = List.length x' ->
  agree_at i x x' -> agree_at i (Toy.sem_layer l [x]) (Toy.sem_layer l [x']).
Proof.
  unfold Toy.sem_layer, agree_at.
  destruct (layer_cfg l); try discriminate; intros _ _ H; trivial.
  now rewrite !nth_error_map, H.
Qed.

Lemma toy_local_call2 l i x x' y y' :
  batchwise2 (layer_cfg l) = true ->
  List.length x = List.length y -> List.length x' = List.length y' ->
  List.length x = List.length x' ->
  agree_at i x x' -> agree_at i y y' ->
  agree_at i (Toy.sem_layer l [x; y]) (Toy.sem_layer l [x'; y']).
Proof.
  unfold Toy.sem_layer.
  destruct (layer_cfg l); try discriminate; intros _ _ _ _ Hx Hy.
  - pose proof (zip_add_local i x x' y y' Hx Hy) as H.
    unfold agree_at in *. now rewrite !nth_error_map, H.
  - now apply zip_add_local.
Qed.

(** C7 on the toy framework: two runs whose pixel embeddings share only
    the tokens of patch 1. *)
Lemma inner_attention_is_per_patch_witness :
  let feed := fun uid : nat => match uid with O => [1; 2; 3] | _ => [7; 7; 7] end in
  let feed' := fun uid : nat => match uid with O => [5; 2; 9] | _ => [0; 0; 0] end in
  exists px' pa' s',
    transformer_in_transformer_block
      (tokens 0 None 4 32) (tokens 1 None 144 64) 64 32 4 4 2 4
      attention_dropout projection_dropout 2%nat = Ok (px', pa', s') /\
    agree_at 1 (Toy.run feed (graph px')) (Toy.run feed' (graph px')) /\
    Toy.run feed (graph px') <> Toy.run feed' (graph px').
Proof.
  intros feed feed'.
  destruct (transformer_in_transformer_block
      (tokens 0 None 4 32) (tokens 1 None 144 64) 64 32 4 4 2 4
      attention_dropout projection_dropout 2%nat)
    as [[[px' pa'] s']|e] eqn:E; [|vm_compute in E; discriminate].
  exists px', pa', s'. split; [reflexivity|]. split.
  - exact (inner_attention_is_per_patch Z Toy.sem_layer Toy.sem_reshape
             Toy.sem_extract_patches Toy.sem_range Toy.sem_plus
             toy_length_call toy_length_call2 toy_local_call toy_local_call2
             _ _ _ _ _ _ _ _ _ _ _ _ _ _ feed feed' 1%nat E
             eq_refl eq_refl).
  - vm_compute in E. injection E as <- _ _. vm_compute. discriminate.
Defined.

(** ** Exceptions while the model is built *)

Lemma add_err x y s e :
  merge (shape x) (shape y) = Err e -> add x y s = Err e.
Proof.
  intros H. unfold add. rewrite bind_new_layer by reflexivity.
  unfold call2, bind, lift. cbn [layer_cfg compute_output_shape].
  now rewrite H.
Qed.

Lemma merge_mismatch b lead N c E :
  c <> E -> c <> 1 -> E <> 1 ->
  exists e, merge [b; Some N; Some c] [lead; Some N; Some E] = Err e.
Proof.
  intros Hce Hc HE.
  assert (Hd : merge_dim (Some c) (Some E) = Err (ShapeError "Add")).
  { cbn [merge_dim]. apply Z.eqb_neq in Hce as ->.
    apply Z.eqb_neq in Hc as ->. now apply Z.eqb_neq in HE as ->. }
  cbn [merge merge_dims]. rewrite merge_dim_same, Hd.
  destruct (merge_batch b lead); eauto.
Qed.

Ltac bind_cases :=
  match goal with
  | |- exists e, bind ?m ?k ?s = Err e =>
      let H := fresh "Hm" in
      destruct (m s) as [[? ?]|?] eqn:H;
      [ rewrite (bind_ok _ _ _ _ _ H)
      | rewrite (bind_err _ _ _ _ H); eauto ]
  end.

Lemma outer_fusion_mismatch px pa b N c E D P oh r ad s :
  shape pa = [b; Some N; Some c] -> c <> E -> c <> 1 -> E <> 1 ->
  exists e, outer_transformer_step px pa E D P oh r ad s = Err e.
Proof.
  intros Hpa Hce Hc HE. unfold outer_transformer_step.
  rewrite Hpa. cbn [unpack3]. rewrite bind_ret_l. cbn beta iota.
  cbn [as_int]. rewrite bind_ret_l.
  bind_cases. apply tf_reshape_inv in Hm as (sh & Hsh & -> & ->).
  apply reshape3_inv in Hsh as (lead & -> & _ & _).
  bind_cases. apply new_layer_inv in Hm as (_ & -> & ->).
  bind_cases. apply call_inv in Hm as (sh & Hsh & -> & ->).
  cbn [layer_cfg shape] in Hsh. rewrite layernorm_shape3 in Hsh.
  injection Hsh as <-.
  bind_cases. apply new_layer_inv in Hm as (_ & -> & ->).
  bind_cases. apply call_inv in Hm as (sh & Hsh & -> & ->).
  cbn [layer_cfg shape] in Hsh. rewrite dense_shape3 in Hsh.
  injection Hsh as <-.
  destruct (merge_mismatch b lead N c E Hce Hc HE) as [e He].
  exists e. apply bind_err, add_err. now rewrite Hpa.
Qed.

Lemma iterate_add {A} (f : A -> M A) k j a s :
  iterate (k + j) f a s = bind (iterate k f a) (iterate j f) s.
Proof.
  revert a s. induction k as [|k IH]; intros a s; [reflexivity|].
  cbn [Nat.add iterate]. rewrite bind_assoc. now apply bind_ext.
Qed.

(** C8, as the code has it.  Nothing in the core catches an exception:
    - a block fails with the exception of its inner or of its outer step,
      and a fusion mismatch (the patch embedding's last dimension is not
      [out_embedding_dim], neither being 1) always makes it fail;
    - the loop over the blocks fails with the exception of the first block
      that fails;
    - [get_model] fails with the exception of [pixel_embed], of
      [patch_embed] or of the loop. *)
Theorem build_errors_propagate :
  (forall px pa b N c E D P oh ih r ad pd s,
     shape pa = [b; Some N; Some c] -> c <> E -> c <> 1 -> E <> 1 ->
     exists e,
       transformer_in_transformer_block px pa E D P oh ih r ad pd s = Err e) /\
  (forall px pa E D P oh ih r ad pd s e,
     (inner_transformer_step px D ih r ad s = Err e ->
      transformer_in_transformer_block px pa E D P oh ih r ad pd s = Err e) /\
     (forall px' s1,
        inner_transformer_step px D ih r ad s = Ok (px', s1) ->
        outer_transformer_step px' pa E D P oh r ad s1 = Err e ->
        transformer_in_transformer_block px pa E D P oh ih r ad pd s = Err e)) /\
  (forall E D P oh ih r ad pd (k j : nat) st s st' s1 e,
     for_range (Z.of_nat k) (block_step E D P oh ih r ad pd) st s =
       Ok (st', s1) ->
     block_step E D P oh ih r ad pd st' s1 = Err e ->
     for_range (Z.of_nat (k + S j)) (block_step E D P oh ih r ad pd) st s =
       Err e) /\
  (forall isz psz E D L oh ih r ad pd stride s e inputs s0 x s1,
     Input input_shape s = Ok (inputs, s0) ->
     data_augmentation inputs s0 = Ok (x, s1) ->
     (pixel_embed x isz psz D stride s1 = Err e ->
      get_model isz psz E D L oh ih r ad pd stride s = Err e) /\
     (forall px n ips s2,
        pixel_embed x isz psz D stride s1 = Ok (px, n, ips, s2) ->
        (patch_embed px n E D (fst ips * snd ips) s2 = Err e ->
         get_model isz psz E D L oh ih r ad pd stride s = Err e) /\
        (forall pa s3,
           patch_embed px n E D (fst ips * snd ips) s2 = Ok (pa, s3) ->
           for_range L (block_step E D (fst ips * snd ips) oh ih r ad pd)
             (px, pa) s3 = Err e ->
           get_model isz psz E D L oh ih r ad pd stride s = Err e))).
Proof.
  repeat apply conj.
  - intros px pa b N c E D P oh ih r ad pd s Hpa Hce Hc HE.
    rewrite block_split. bind_cases.
    destruct (outer_fusion_mismatch k pa b N c E D P oh r ad n Hpa Hce Hc HE)
      as [e He].
    exists e. now apply bind_err.
  - intros px pa E D P oh ih r ad pd s e. split.
    + intros Hin. rewrite block_split. now apply bind_err.
    + intros px' s1 Hin Hout. rewrite block_split.
      rewrite (bind_ok _ _ _ _ _ Hin). now apply bind_err.
  - intros E D P oh ih r ad pd k j st s st' s1 e Hk Hb.
    unfold for_range in *. rewrite Nat2Z.id in *.
    rewrite iterate_add, (bind_ok _ _ _ _ _ Hk). cbn [iterate].
    now apply bind_err.
  - intros isz psz E D L oh ih r ad pd stride s e inputs s0 x s1 Hi Ha.
    assert (U : get_model isz psz E D L oh ih r ad pd stride s =
                bind (pixel_embed x isz psz D stride)
                  (fun p => let '(px, n, ips) := p in
                     pa <- patch_embed px n E D (fst ips * snd ips) ;;
                     '(px1, pa1) <-
                        for_range L
                          (block_step E D (fst ips * snd ips) oh ih r ad pd)
                          (px, pa) ;;
                     l <- new_layer (LayerNormalization (1 # 100000)) ;;
                     pa2 <- call l pa1 ;;
                     l <- new_layer GlobalAvgPool1D ;;
                     y <- call l pa2 ;;
                     l <- new_layer (Dense num_classes (Some softmax)) ;;
                     out <- call l y ;;
                     ret (mkModel inputs out)) s1).
    { unfold get_model.
      now rewrite (bind_ok _ _ _ _ _ Hi), (bind_ok _ _ _ _ _ Ha). }
    split.
    + intros Hpx. rewrite U. now apply bind_err.
    + intros px n ips s2 Hpx. rewrite U, (bind_ok _ _ _ _ _ Hpx). split.
      * intros Hpa. now apply bind_err.
      * intros pa s3 Hpa Hloop. rewrite (bind_ok _ _ _ _ _ Hpa).
        now apply bind_err.
Qed.

(** C8 on a block given a 64-wide patch embedding and asked for width 48,
    and on a model asked for stride 0, where [pixel_embed] divides by zero. *)
Lemma build_errors_propagate_witness :
  (exists e,
     transformer_in_transformer_block
       (tokens 0 None 4 32) (tokens 1 None 144 64) 48 32 4 4 2 4
       attention_dropout projection_dropout 2%nat = Err e) /\
  transformer_in_transformer_block
    (tokens 0 None 4 32) (tokens 1 None 144 64) 48 32 4 4 2 4
    attention_dropout projection_dropout 2%nat = Err (ShapeError "Add") /\
  get_model image_size patch_size 64 32 5 4 2 4 attention_dropout
    projection_dropout 0 0%nat = Err ZeroDivisionError.
Proof.
  destruct build_errors_propagate as (Hfusion & _ & _ & Hmodel).
  split; [|split].
  - apply (Hfusion (tokens 0 None 4 32) (tokens 1 None 144 64) None 144 64 48);
      [reflexivity|discriminate..].
  - vm_compute. reflexivity.
  - destruct (Input input_shape 0%nat) as [[inputs s0]|e] eqn:Hi;
      [|vm_compute in Hi; discriminate].
    destruct (data_augmentation inputs s0) as [[x s1]|e] eqn:Ha;
      [|vm_compute in Hi; injection Hi as <- <-; vm_compute in Ha;
        discriminate].
    apply (Hmodel image_size patch_size 64 32 5 4 2 4 attention_dropout
             projection_dropout 0 0%nat ZeroDivisionError inputs s0 x s1
             Hi Ha).
    vm_compute in Hi. injection Hi as <- <-.
    vm_compute in Ha. injection Ha as <- <-. vm_compute. reflexivity.
Defined.

(** C8 as stated fails.  With 7x7 patches on 96x96 images the patch size
    does not divide the image size, yet the model builds: [num_patches] is
    the floor quotient 13 * 13 = 169 while the feature map holds 12 * 12
    windows per image, and with the batch unknown the reshapes cannot be
    checked.  Only when the batch is known, 128 say, does the reshape of
    [patch_embed] raise. *)
Lemma build_accepts_indivisible_patch_size :
  fst image_size mod 7 <> 0 /\ snd image_size mod 7 <> 0 /\
  (exists m s1,
     get_model image_size (7, 7) 64 32 5 4 2 4 attention_dropout
       projection_dropout 4 0%nat = Ok (m, s1) /\
     shape (outputs m) = [None; Some num_classes]) /\
  (exists px s1,
     pixel_embed (images (Some 128) 96 96 3) image_size (7, 7) 32 4 1%nat =
       Ok (px, 169, (2, 2), s1) /\
     shape px = [Some (128 * 144); Some 4; Some 32] /\
     patch_embed px 169 64 32 4 s1 = Err (ShapeError "reshape")).
Proof.
  split; [discriminate|]. split; [discriminate|]. split.
  - assert (H : output_shape
                  (get_model image_size (7, 7) 64 32 5 4 2 4 attention_dropout
                     projection_dropout 4 0%nat) = Ok [None; Some num_classes])
      by (vm_compute; reflexivity).
    destruct (get_model image_size (7, 7) 64 32 5 4 2 4 attention_dropout
                projection_dropout 4 0%nat) as [[m s1]|e];
      [|discriminate H].
    exists m, s1. split; [reflexivity|]. now injection H.
  - destruct (pixel_embed (images (Some 128) 96 96 3) image_size (7, 7) 32 4
                1%nat) as [[[[px n] ips] s1]|e] eqn:E;
      [|vm_compute in E; discriminate].
    vm_compute in E. injection E as <- <- <- <-.
    eexists _, _. split; [reflexivity|]. split; vm_compute; reflexivity.
Qed.

(** ** Model Assembler *)

(** The output of a built model is produced by the dense softmax layer over
    [num_classes] classes, one row per image. *)
Lemma get_model_head isz psz E D L oh ih r ad pd stride s m s1 :
  get_model isz psz E D L oh ih r ad pd stride s = Ok (m, s1) ->
  exists l x batch,
    graph (outputs m) = NCall l x /\
    layer_cfg l = Dense num_classes (Some softmax) /\
    shape (outputs m) = [batch; Some num_classes].
Proof.
  intros H. unfold get_model in H.
  do 5 (apply bind_ok_inv in H as (? & ? & _ & H); cbv beta in H;
        split_pairs H).
  inv_all.
  repeat match goal with
         | K : compute_output_shape (LayerNormalization _) _ = Ok _ |- _ =>
             clear K
         end.
  match goal with
  | K : compute_output_shape GlobalAvgPool1D [?sh] = Ok _ |- _ =>
      destruct sh as [|b [|t [|d [|]]]]; try discriminate K;
      cbn [compute_output_shape] in K; injection K as <-
  end.
  match goal with
  | K : compute_output_shape (Dense _ _) _ = Ok _ |- _ =>
      cbn [compute_output_shape project_last] in K;
      destruct b, d; try discriminate K; injection K as <-
  end.
  all: eexists _, _, _; repeat split.
Qed.

(** [get_model()] at the notebook's hyperparameters builds a classifier of
    100 classes. *)
Example get_model_default_builds :
  output_shape (get_model_default 0%nat) = Ok [None; Some 100].
Proof. vm_compute. reflexivity. Qed.

(** * Further properties of the notebook's functions *)

(** ** pixel_embed: exceptions *)

(** X4. [pixel_embed] unpacks [x.shape] before anything else, so a tensor
    that is not of rank 4 raises the unpacking error whatever the other
    arguments are; on a rank-4 tensor a zero patch height or width, or a
    zero stride, raises ZeroDivisionError. *)
Theorem pixel_embed_raises
    (x : KerasTensor) (image_size patch_size : Z * Z) (in_dim stride : Z)
    (s : nat) :
  (List.length (shape x) <> 4%nat ->
   pixel_embed x image_size patch_size in_dim stride s = Err UnpackError) /\
  (List.length (shape x) = 4%nat ->
   fst patch_size = 0 \/ snd patch_size = 0 \/ stride = 0 ->
   pixel_embed x image_size patch_size in_dim stride s =
     Err ZeroDivisionError).
Proof.
  unfold pixel_embed. split.
  - intros H. apply bind_err.
    destruct (shape x) as [|a [|b [|c [|d [|]]]]]; try reflexivity.
    now contradiction H.
  - intros H Hz.
    destruct (shape x) as [|a [|b [|c [|d [|]]]]]; try discriminate H.
    cbn [unpack4]. rewrite bind_ret_l. cbn beta iota.
    destruct (Z.eq_dec (fst patch_size) 0) as [E0|N0].
    { apply bind_err. unfold lift, Py.floordiv. now rewrite E0. }
    rewrite (bind_lift _ (fst image_size / fst patch_size))
      by (unfold Py.floordiv; now apply Z.eqb_neq in N0 as ->).
    destruct (Z.eq_dec (snd patch_size) 0) as [E1|N1].
    { apply bind_err. unfold lift, Py.floordiv. now rewrite E1. }
    rewrite (bind_lift _ (snd image_size / snd patch_size))
      by (unfold Py.floordiv; now apply Z.eqb_neq in N1 as ->).
    destruct Hz as [Hz|[Hz|Hz]]; try contradiction.
    apply bind_err. unfold lift, Py.ceil_truediv. now rewrite Hz.
Qed.

(** X4 on a rank-3 tensor with a zero patch size, and on an image with
    stride 0. *)
Lemma pixel_embed_raises_witness :
  pixel_embed (tokens 0 None 4 32) image_size (0, 0) 32 4 0%nat =
    Err UnpackError /\
  pixel_embed (images None 96 96 3) image_size patch_size 32 0 0%nat =
    Err ZeroDivisionError.
Proof.
  split.
  - apply (proj1 (pixel_embed_raises (tokens 0 None 4 32) image_size (0, 0)
                    32 4 0%nat)). discriminate.
  - apply (proj2 (pixel_embed_raises (images None 96 96 3) image_size
                    patch_size 32 0 0%nat)); [reflexivity|auto].
Defined.

(** ** data_augmentation *)

(** X1. On any batch of images, whatever their height and width,
    [data_augmentation] returns a tensor of the module-level [image_size]
    (96x96) with the batch and channel dimensions of its input, having
    created six layers. *)
Theorem data_augmentation_resizes (batch h w c : option Z) (g : node) (s : nat) :
  exists t,
    data_augmentation (mkTensor [batch; h; w; c] g) s = Ok (t, (6 + s)%nat) /\
    shape t = [batch; Some (fst image_size); Some (snd image_size); c].
Proof.
  unfold data_augmentation.
  repeat (rewrite bind_new_layer by reflexivity;
          erewrite bind_call by reflexivity).
  eexists. split; reflexivity.
Qed.

(** ** pixel_embed: the pixel groups are the patches *)

Lemma ceil_exact a b : 0 < b -> a mod b = 0 -> - (- a / b) = a / b.
Proof.
  intros Hb H. rewrite Z.div_opp_l_z by lia. lia.
Qed.

Lemma same_window_exact n s :
  0 < s -> n mod s = 0 -> (n + s - 1) / s = n / s.
Proof.
  intros Hs H. apply Z.div_exact in H; [|lia].
  symmetry. apply Z.div_unique with (r := s - 1); lia.
Qed.

Lemma div_chain n p s :
  0 < s -> 0 < p -> p mod s = 0 -> n / s / (p / s) = n / p.
Proof.
  intros Hs Hp H. apply Z.div_exact in H; [|lia].
  assert (0 < p / s) by nia.
  rewrite Z.div_div by lia. now rewrite <- H.
Qed.

Lemma mod_chain n p s :
  0 < s -> 0 < p -> p mod s = 0 -> n mod p = 0 -> n mod s = 0.
Proof.
  intros Hs Hp H1 H2.
  apply Z.div_exact in H1, H2; try lia.
  rewrite H2, H1, <- Z.mul_assoc, Z.mul_comm. apply Z.mod_mul. lia.
Qed.

(** [pixel_embed] when stride, patch size and image size divide one another. *)
Lemma pixel_embed_divisible
    (batch : option Z) (H W C : Z) (g : node) (image_size : Z * Z)
    (ph pw in_dim stride : Z) (s : nat) :
  0 < stride -> 0 < ph -> 0 < pw -> 0 < H -> 0 < W -> 0 < in_dim ->
  ph mod stride = 0 -> pw mod stride = 0 ->
  H mod ph = 0 -> W mod pw = 0 ->
  exists t,
    pixel_embed (mkTensor [batch; Some H; Some W; Some C] g) image_size
      (ph, pw) in_dim stride s =
      Ok (t, (fst image_size / ph) * (snd image_size / pw),
          (ph / stride, pw / stride), (4 + s)%nat) /\
    shape t =
      [option_map (fun k => k * ((H / ph) * (W / pw))) batch;
       Some (ph / stride * (pw / stride)); Some in_dim].
Proof.
  intros Hs Hph Hpw HH HW Hd Dph Dpw DH DW.
  assert (Kh : 0 < ph / stride)
    by (apply Z.div_exact in Dph; [nia|lia]).
  assert (Kw : 0 < pw / stride)
    by (apply Z.div_exact in Dpw; [nia|lia]).
  assert (SH : H mod stride = 0) by (apply (mod_chain H ph stride); trivial).
  assert (SW : W mod stride = 0) by (apply (mod_chain W pw stride); trivial).
  assert (Nh : 0 <= H / stride) by (apply Z.div_pos; lia).
  assert (Nw : 0 <= W / stride) by (apply Z.div_pos; lia).
  unfold pixel_embed. cbn [shape unpack4 fst snd].
  rewrite bind_ret_l. cbn beta iota.
  rewrite (bind_lift _ (fst image_size / ph))
    by (unfold Py.floordiv; now destruct (Z.eqb_spec ph 0); [lia|]).
  rewrite (bind_lift _ (snd image_size / pw))
    by (unfold Py.floordiv; now destruct (Z.eqb_spec pw 0); [lia|]).
  rewrite (bind_lift _ (ph / stride))
    by (unfold Py.ceil_truediv; destruct (Z.eqb_spec stride 0); [lia|];
        now rewrite ceil_exact).
  rewrite (bind_lift _ (pw / stride))
    by (unfold Py.ceil_truediv; destruct (Z.eqb_spec stride 0); [lia|];
        now rewrite ceil_exact).
  rewrite bind_new_layer
    by (cbn; apply Z.ltb_lt in Hd as ->; now apply Z.ltb_lt in Hs as ->).
  rewrite bind_call
    with (sh := [batch; Some (H / stride); Some (W / stride); Some in_dim])
    by (cbn [layer_cfg shape compute_output_shape window];
        now rewrite !same_window_exact).
  rewrite bind_extract_patches
    with (b := batch) (h := Some (H / stride)) (w := Some (W / stride))
         (d := in_dim) (h' := Some (H / ph)) (w' := Some (W / pw));
    [ | reflexivity | assumption | assumption
      | cbn [window]; destruct (Z.ltb_spec (H / stride - ph / stride + ph / stride) 0);
        [lia|]; now rewrite Z.sub_add, div_chain
      | cbn [window]; destruct (Z.ltb_spec (W / stride - pw / stride + pw / stride) 0);
        [lia|]; now rewrite Z.sub_add, div_chain ].
  cbn [graph].
  set (lead := option_map (fun k => k * ((H / ph) * (W / pw))) batch).
  set (P := ph / stride * (pw / stride)) in *.
  assert (HP : 0 < P) by (subst P; nia).
  assert (Gh : 0 < H / ph) by (apply Z.div_exact in DH; [nia|lia]).
  assert (Gw : 0 < W / pw) by (apply Z.div_exact in DW; [nia|lia]).
  assert (R : reshape_shape
                [batch; Some (H / ph); Some (W / pw); Some (P * in_dim)]
                [-1; P; in_dim] = Ok [lead; Some P; Some in_dim]).
  { subst lead. destruct batch as [k|]; cbn [option_map].
    - apply reshape3_known; trivial; cbn [unknown_dims known_elems]; ring.
    - apply reshape3_unknown with (n := O);
      [reflexivity|cbn [known_elems]; nia|nia|nia]. }
  rewrite bind_tf_reshape with (sh := [lead; Some P; Some in_dim]) by exact R.
  rewrite <- bind_assoc.
  rewrite bind_PatchEncoder with (lead := lead) (c := in_dim)
    by (reflexivity || lia).
  eexists. split; reflexivity.
Qed.

(** X5. When the stride divides the patch size and the patch size divides
    the height and width of the images, [pixel_embed] returns, the inner
    patch geometry is the exact quotient of patch size by stride, and the
    leading dimension of the pixel embedding is the batch times the number
    of patches of the image ([None] for an unknown batch): one group of
    pixel vectors per patch.  When the images have the [image_size] passed
    to the function this is [batch * num_patches]. *)
Theorem pixel_embed_groups_are_patches
    (batch : option Z) (H W C : Z) (g : node) (image_size : Z * Z)
    (ph pw in_dim stride : Z) (s : nat) :
  0 < stride -> 0 < ph -> 0 < pw -> 0 < H -> 0 < W -> 0 < in_dim ->
  ph mod stride = 0 -> pw mod stride = 0 ->
  H mod ph = 0 -> W mod pw = 0 ->
  exists t,
    pixel_embed (mkTensor [batch; Some H; Some W; Some C] g) image_size
      (ph, pw) in_dim stride s =
      Ok (t, (fst image_size / ph) * (snd image_size / pw),
          (ph / stride, pw / stride), (4 + s)%nat) /\
    shape t =
      [option_map (fun k => k * ((H / ph) * (W / pw))) batch;
       Some (ph / stride * (pw / stride)); Some in_dim].
Proof.
  intros. now apply pixel_embed_divisible.
Qed.

(** X5 on the notebook's sizes (96x96 images, 8x8 patches, stride 4) with a
    batch of 128: 128 * 144 groups of 4 pixel vectors. *)
Lemma pixel_embed_groups_are_patches_witness :
  exists t,
    pixel_embed (images (Some 128) 96 96 3) image_size patch_size 32 4 1%nat =
      Ok (t, 144, (2, 2), 5%nat) /\
    shape t = [Some (128 * 144); Some 4; Some 32].
Proof.
  exact (pixel_embed_groups_are_patches (Some 128) 96 96 3
           (NInput 0 [Some 128; Some 96; Some 96; Some 3]) image_size
           8 8 32 4 1%nat eq_refl eq_refl eq_refl eq_refl eq_refl eq_refl
           eq_refl eq_refl eq_refl eq_refl).
Defined.

(** ** PatchEncoder *)

Lemma broadcast_token_mismatch lead T n d :
  T <> n -> T <> 1 -> n <> 1 ->
  broadcast [lead; Some T; Some d] [Some n; Some d] = Err (ShapeError "add").
Proof.
  intros H H1 Hn. unfold broadcast.
  cbn [rev app broadcast_rev broadcast_dim]. rewrite Z.eqb_refl.
  apply Z.eqb_neq in H as ->. apply Z.eqb_neq in H1 as ->.
  now apply Z.eqb_neq in Hn as ->.
Qed.

(** X3. A [PatchEncoder] of [n] positions and width [d], applied to a
    rank-3 tensor of [T] tokens: when [T = n] the call returns a tensor of
    shape [(lead, n, d)], having created the encoder, its projection and
    its position table; when the token count is not the table's length
    (neither being 1) the addition of the position table raises. *)
Theorem PatchEncoder_needs_matching_tokens
    (n d : Z) (x : KerasTensor) (lead : option Z) (T c : Z) (s : nat) :
  0 < n -> 0 < d -> shape x = [lead; Some T; Some c] ->
  (T = n ->
   exists t,
     (enc <- PatchEncoder_init n d ;; PatchEncoder_call enc x) s =
       Ok (t, (3 + s)%nat) /\
     shape t = [lead; Some n; Some d]) /\
  (T <> n -> T <> 1 -> n <> 1 ->
   (enc <- PatchEncoder_init n d ;; PatchEncoder_call enc x) s =
     Err (ShapeError "add")).
Proof.
  intros Hn Hd Hx. split.
  - intros ->. rewrite <- (bind_ret_r _ s).
    rewrite bind_PatchEncoder with (lead := lead) (c := c) by assumption.
    eexists. split; reflexivity.
  - intros HT H1 Hn1. unfold PatchEncoder_init, PatchEncoder_call.
    rewrite !bind_assoc, bind_fresh.
    rewrite bind_assoc, bind_new_layer by now apply valid_dense.
    rewrite bind_assoc, bind_new_layer by now apply valid_embedding.
    rewrite bind_ret_l. cbn [pe_num_patches projection position_embedding].
    rewrite bind_tf_range by lia.
    rewrite bind_call with (sh := [lead; Some T; Some d])
      by (rewrite Hx; apply dense_shape3).
    rewrite bind_call with (sh := [Some n; Some d])
      by (cbn; now rewrite Z.sub_0_r).
    apply bind_err. unfold tf_plus. apply bind_err. cbn [shape].
    now rewrite broadcast_token_mismatch.
Qed.

(** X3 on an encoder of 144 positions given 144 tokens, then 169. *)
Lemma PatchEncoder_needs_matching_tokens_witness :
  (exists t,
     (enc <- PatchEncoder_init 144 64 ;;
      PatchEncoder_call enc (tokens 0 None 144 128)) 1%nat =
       Ok (t, 4%nat) /\
     shape t = [None; Some 144; Some 64]) /\
  (enc <- PatchEncoder_init 144 64 ;;
   PatchEncoder_call enc (tokens 0 None 169 128)) 1%nat =
    Err (ShapeError "add").
Proof.
  split.
  - apply (proj1 (PatchEncoder_needs_matching_tokens 144 64
                    (tokens 0 None 144 128) None 144 128 1%nat
                    eq_refl eq_refl eq_refl)). reflexivity.
  - apply (proj2 (PatchEncoder_needs_matching_tokens 144 64
                    (tokens 0 None 169 128) None 169 128 1%nat
                    eq_refl eq_refl eq_refl)); discriminate.
Defined.

(** ** mlp *)

Lemma project_last_cons op a b s u :
  project_last op (a :: b :: s) u =
  match project_last op (b :: s) u with
  | Ok r' => Ok (a :: r')
  | Err e => Err e
  end.
Proof. destruct a; reflexivity. Qed.

Lemma project_last_shape op s u s' :
  project_last op s u = Ok s' -> s' = removelast s ++ [Some u].
Proof.
  revert s'. induction s as [|a s IH]; intros s' H; [discriminate|].
  destruct s as [|b s].
  - destruct a; [|discriminate]. now injection H as <-.
  - rewrite project_last_cons in H.
    destruct (project_last op (b :: s) u) as [r|e]; [|discriminate].
    injection H as <-. now rewrite (IH r eq_refl).
Qed.

Lemma dense_shape_inv u act s s' :
  compute_output_shape (Dense u act) [s] = Ok s' ->
  s' = removelast s ++ [Some u].
Proof.
  cbn [compute_output_shape]. destruct s as [|a [|b s]]; try discriminate.
  apply project_last_shape.
Qed.

Lemma removelast_snoc {A} (l : list A) (x : A) : removelast (l ++ [x]) = l.
Proof. apply removelast_last. Qed.

Lemma length_replace_last {A} (l : list A) (z : A) :
  l <> [] -> List.length (removelast l ++ [z]) = List.length l.
Proof.
  intros H. destruct (exists_last H) as (l' & a & ->).
  now rewrite removelast_last, !length_app.
Qed.

(** X2. When [mlp] returns, it has created four layers and its result has
    the shape of its input with the last dimension replaced by
    [output_dim]: the hidden dimension and the drop rate do not show in the
    shape. *)
Theorem mlp_output_shape
    (x : KerasTensor) (hidden_dim output_dim : Z) (drop_rate : Q) (s : nat)
    (t : KerasTensor) (s1 : nat) :
  mlp x hidden_dim output_dim drop_rate s = Ok (t, s1) ->
  shape t = removelast (shape x) ++ [Some output_dim] /\
  List.length (shape t) = List.length (shape x) /\
  s1 = (4 + s)%nat.
Proof.
  intros H. unfold mlp in H. inv_all.
  repeat match goal with
         | K : compute_output_shape (Dropout _) _ = Ok _ |- _ =>
             cbn [compute_output_shape] in K; injection K as <-
         end.
  repeat match goal with
         | K : compute_output_shape (Dense _ _) _ = Ok _ |- _ =>
             pose proof K as K'; apply dense_shape_inv in K;
             revert K'
         end.
  intros K1 K2. subst. rewrite removelast_snoc.
  split; [reflexivity|]. split; [|reflexivity].
  apply length_replace_last. intros E. rewrite E in *. discriminate.
Qed.

(** X2 on the feed-forward layer of the notebook's inner transformer. *)
Lemma mlp_output_shape_witness :
  exists t s1,
    mlp (tokens 0 None 4 32) 128 32 mlp_drop_rate 1%nat = Ok (t, s1) /\
    shape t = [None; Some 4; Some 32] /\ s1 = 5%nat.
Proof.
  destruct (mlp (tokens 0 None 4 32) 128 32 mlp_drop_rate 1%nat)
    as [[t s1]|e] eqn:E; [|vm_compute in E; discriminate].
  destruct (mlp_output_shape _ _ _ _ _ _ _ E) as (Hs & _ & Hn).
  exists t, s1. split; [reflexivity|]. split; [exact Hs|exact Hn].
Defined.

(** ** patch_embed: folding the pixel groups *)

Lemma patch_embed_ok px lead N P D E s :
  0 < N -> 0 < E ->
  reshape_shape (shape px) [-1; N; D * P] = Ok [lead; Some N; Some (D * P)] ->
  exists g,
    patch_embed px N E D P s =
      Ok (mkTensor [lead; Some N; Some E] g, (7 + s)%nat).
Proof.
  intros HN HE R. unfold patch_embed.
  rewrite bind_tf_reshape with (sh := [lead; Some N; Some (D * P)])
    by exact R.
  rewrite bind_new_layer by reflexivity.
  rewrite bind_call with (sh := [lead; Some N; Some (D * P)])
    by apply layernorm_shape3.
  rewrite bind_new_layer by now apply valid_dense.
  rewrite bind_call with (sh := [lead; Some N; Some E])
    by apply dense_shape3.
  rewrite bind_new_layer by reflexivity.
  rewrite bind_call with (sh := [lead; Some N; Some E])
    by apply layernorm_shape3.
  rewrite <- bind_assoc.
  rewrite bind_PatchEncoder with (lead := lead) (c := E)
    by (reflexivity || lia).
  rewrite bind_new_layer by reflexivity.
  rewrite bind_call with (sh := [lead; Some N; Some E]) by reflexivity.
  eexists. reflexivity.
Qed.



(** X7. On a pixel embedding whose shape is fully known, [patch_embed]
    raises the reshape error when the number of
    elements is not a multiple of [num_patches * inner_dim * num_pixels]:
    the pixel groups cannot be folded into whole images. *)
Theorem patch_embed_rejects_partial_images
    (lead tokens_ width : Z) (g : node)
    (num_patches outer_dim inner_dim num_pixels : Z) (s : nat) :
  0 < num_patches -> 0 < inner_dim -> 0 < num_pixels ->
  (lead * (tokens_ * width)) mod (num_patches * (inner_dim * num_pixels))
    <> 0 ->
  patch_embed (mkTensor [Some lead; Some tokens_; Some width] g)
    num_patches outer_dim inner_dim num_pixels s =
    Err (ShapeError "reshape").
Proof.
  intros HN HD HP Hmod. unfold patch_embed. apply bind_err.
  unfold tf_reshape. apply bind_err. cbn [shape]. unfold lift, reshape_shape.
  rewrite requested3 by nia.
  assert (Ui : unknown_count [Some lead; Some tokens_; Some width] = O)
    by (unfold unknown_count; now destruct (_ =? 0)).
  assert (Uo : unknown_count
                 [None; Some num_patches; Some (inner_dim * num_pixels)]
               = 1%nat).
  { unfold unknown_count. cbn [known_elems unknown_dims].
    now destruct (Z.eqb_spec (num_patches * (inner_dim * num_pixels * 1)) 0);
      [nia|]. }
  rewrite Ui, Uo. cbn [unknown_dims known_elems]. rewrite !Z.mul_1_r.
  destruct (Z.ltb_spec 0 (num_patches * (inner_dim * num_pixels))); [|nia].
  now apply Z.eqb_neq in Hmod as ->.
Qed.

(** X7 on a batch of 128 images of 144 pixel groups each, folded as if an
    image had 169 patches. *)
Lemma patch_embed_rejects_partial_images_witness :
  patch_embed (tokens 0 (Some (128 * 144)) 4 32) 169 64 32 4 1%nat =
    Err (ShapeError "reshape").
Proof.
  apply (patch_embed_rejects_partial_images (128 * 144) 4 32
           (NInput 0 [Some (128 * 144); Some 4; Some 32]) 169 64 32 4 1%nat);
    [reflexivity..|discriminate].
Defined.

(** ** Stacks of blocks *)

Lemma block_step_ok batch N P D E oh ih ratio ad pd px pa s :
  0 < N -> 0 < P -> 0 < D -> 0 < E -> 0 < oh -> 0 < ih -> 0 < ratio ->
  rate_ok ad = true ->
  shape px = [option_map (fun k => k * N) batch; Some P; Some D] ->
  shape pa = [batch; Some N; Some E] ->
  exists px' pa' s',
    block_step E D P oh ih ratio ad pd (px, pa) s = Ok (px', pa', s') /\
    shape px' = shape px /\ shape pa' = shape pa.
Proof.
  intros HN HP HD HE Hoh Hih Hr Had Hpx Hpa.
  unfold block_step. cbn [fst snd].
  destruct (inner_transformer_step_ok px _ _ _ ih ratio ad s Hpx)
    as (g & s1 & Hin); trivial.
  destruct (outer_transformer_step_ok
              (mkTensor [option_map (fun k => k * N) batch; Some P; Some D] g)
              pa batch N P D E oh ratio ad s1) as (g' & s2 & Hout); trivial.
  rewrite block_split, (bind_ok _ _ _ _ _ Hin), (bind_ok _ _ _ _ _ Hout).
  eexists _, _, _. split; [reflexivity|]. cbn [shape]. now rewrite Hpx, Hpa.
Qed.

Lemma iterate_block_step_ok batch N P D E oh ih ratio ad pd :
  0 < N -> 0 < P -> 0 < D -> 0 < E -> 0 < oh -> 0 < ih -> 0 < ratio ->
  rate_ok ad = true ->
  forall k px pa s,
    shape px = [option_map (fun k => k * N) batch; Some P; Some D] ->
    shape pa = [batch; Some N; Some E] ->
    exists px' pa' s',
      iterate k (block_step E D P oh ih ratio ad pd) (px, pa) s =
        Ok (px', pa', s') /\
      shape px' = shape px /\ shape pa' = shape pa.
Proof.
  intros HN HP HD HE Hoh Hih Hr Had.
  induction k as [|k IH]; intros px pa s Hpx Hpa.
  - exists px, pa, s. repeat split.
  - destruct (block_step_ok batch N P D E oh ih ratio ad pd px pa s)
      as (px1 & pa1 & s1 & H1 & Hs1 & Hs1'); trivial.
    destruct (IH px1 pa1 s1) as (px2 & pa2 & s2 & H2 & Hs2 & Hs2');
      try congruence.
    exists px2, pa2, s2. cbn [iterate]. rewrite (bind_ok _ _ _ _ _ H1), H2.
    split; [reflexivity|]. split; congruence.
Qed.

(** X9. A stack of blocks, as the loop of [get_model] over [range(n)]
    builds it, on embeddings of consistent shapes: the loop returns for
    every [n], and both tensors keep their shapes through the whole stack.
    A count that is zero or negative builds no block: the embeddings come
    back as they were given. *)
Theorem block_stack_preserves_shapes
    (batch : option Z) (num_patches num_pixels inner_dim outer_dim : Z)
    (out_num_heads in_num_heads mlp_ratio : Z)
    (attention_dropout projection_dropout : Q)
    (px pa : KerasTensor) (s : nat) :
  0 < num_patches -> 0 < num_pixels -> 0 < inner_dim -> 0 < outer_dim ->
  0 < out_num_heads -> 0 < in_num_heads -> 0 < mlp_ratio ->
  (0 <= attention_dropout /\ attention_dropout <= 1)%Q ->
  shape px =
    [option_map (fun k => k * num_patches) batch; Some num_pixels;
     Some inner_dim] ->
  shape pa = [batch; Some num_patches; Some outer_dim] ->
  forall n : Z,
    exists px' pa' s',
      for_range n
        (block_step outer_dim inner_dim num_pixels out_num_heads
           in_num_heads mlp_ratio attention_dropout projection_dropout)
        (px, pa) s = Ok (px', pa', s') /\
      shape px' = shape px /\ shape pa' = shape pa /\
      (n <= 0 -> px' = px /\ pa' = pa /\ s' = s).
Proof.
  intros HN HP HD HE Hoh Hih Hr Had Hpx Hpa n.
  apply rate_ok_iff in Had. unfold for_range.
  destruct (iterate_block_step_ok batch num_patches num_pixels inner_dim
              outer_dim out_num_heads in_num_heads mlp_ratio
              attention_dropout projection_dropout HN HP HD HE Hoh Hih Hr Had
              (Z.to_nat n) px pa s Hpx Hpa)
    as (px' & pa' & s' & H & H1 & H2).
  exists px', pa', s'. split; [exact H|]. split; [exact H1|].
  split; [exact H2|].
  intros Hn. replace (Z.to_nat n) with O in H by lia. cbn in H.
  injection H as <- <- <-. repeat split.
Qed.

(** X9 on the notebook's stack of five blocks. *)
Lemma block_stack_preserves_shapes_witness :
  exists px' pa' s',
    for_range num_transformer_layer
      (block_step 64 32 4 4 2 4 attention_dropout projection_dropout)
      (tokens 0 None 4 32, tokens 1 None 144 64) 2%nat =
      Ok (px', pa', s') /\
    shape px' = [None; Some 4; Some 32] /\
    shape pa' = [None; Some 144; Some 64].
Proof.
  assert (Hr : (0 <= attention_dropout /\ attention_dropout <= 1)%Q)
    by (split; discriminate).
  destruct (block_stack_preserves_shapes None 144 4 32 64 4 2 4
              attention_dropout projection_dropout
              (tokens 0 None 4 32) (tokens 1 None 144 64) 2%nat
              eq_refl eq_refl eq_refl eq_refl eq_refl eq_refl eq_refl Hr
              eq_refl eq_refl num_transformer_layer)
    as (px' & pa' & s' & H & H1 & H2 & _).
  exists px', pa', s'. split; [exact H|]. split; [exact H1|exact H2].
Defined.

(** ** get_model builds *)

Lemma data_augmentation_ok batch h w c g s :
  exists g',
    data_augmentation (mkTensor [batch; h; w; c] g) s =
      Ok (mkTensor [batch; Some 96; Some 96; c] g', (6 + s)%nat).
Proof.
  unfold data_augmentation.
  repeat (rewrite bind_new_layer by reflexivity;
          erewrite bind_call by reflexivity).
  eexists. reflexivity.
Qed.

Lemma ceiling_positive a b : 0 < a -> 0 < b -> 0 < - (- a / b).
Proof. intros Ha Hb. pose proof (ceiling_bounds a b Hb). nia. Qed.

(** A window no larger than the extent fits at least once in the strided
    feature map. *)
Lemma window_fits n p s :
  0 < s -> 0 < p <= n ->
  0 < ((n + s - 1) / s - - (- p / s) + - (- p / s)) / - (- p / s).
Proof.
  intros Hs Hp.
  pose proof (ceiling_bounds p s Hs) as B.
  pose proof (ceiling_positive p s ltac:(lia) Hs) as K.
  pose proof (Z.mul_succ_div_gt (n + s - 1) s Hs) as G.
  set (k := - (- p / s)) in *. set (m := (n + s - 1) / s) in *.
  rewrite Z.sub_add. apply Z.div_str_pos. nia.
Qed.

(** [pixel_embed] on images of unknown batch and patches no larger than
    the images: no divisibility is needed. *)
Lemma pixel_embed_unknown_batch H W C g isz ph pw in_dim stride s :
  0 < ph <= H -> 0 < pw <= W -> 0 < stride -> 0 < in_dim ->
  exists g' s1,
    pixel_embed (mkTensor [None; Some H; Some W; Some C] g) isz (ph, pw)
      in_dim stride s =
      Ok (mkTensor [None; Some (- (- ph / stride) * - (- pw / stride));
                    Some in_dim] g',
          (fst isz / ph) * (snd isz / pw),
          (- (- ph / stride), - (- pw / stride)), s1).
Proof.
  intros Hph Hpw Hs Hd.
  pose proof (ceiling_positive ph stride ltac:(lia) Hs) as Kh.
  pose proof (ceiling_positive pw stride ltac:(lia) Hs) as Kw.
  pose proof (window_fits H ph stride Hs Hph) as Fh.
  pose proof (window_fits W pw stride Hs Hpw) as Fw.
  set (kh := - (- ph / stride)) in *. set (kw := - (- pw / stride)) in *.
  assert (Nh : 0 <= (H + stride - 1) / stride) by (apply Z.div_pos; lia).
  assert (Nw : 0 <= (W + stride - 1) / stride) by (apply Z.div_pos; lia).
  unfold pixel_embed. cbn [shape unpack4 fst snd].
  rewrite bind_ret_l. cbn beta iota.
  rewrite (bind_lift _ (fst isz / ph))
    by (unfold Py.floordiv; now destruct (Z.eqb_spec ph 0); [lia|]).
  rewrite (bind_lift _ (snd isz / pw))
    by (unfold Py.floordiv; now destruct (Z.eqb_spec pw 0); [lia|]).
  rewrite (bind_lift _ kh)
    by (unfold Py.ceil_truediv; now destruct (Z.eqb_spec stride 0); [lia|]).
  rewrite (bind_lift _ kw)
    by (unfold Py.ceil_truediv; now destruct (Z.eqb_spec stride 0); [lia|]).
  rewrite bind_new_layer
    by (cbn; apply Z.ltb_lt in Hd as ->; now apply Z.ltb_lt in Hs as ->).
  rewrite bind_call
    with (sh := [None; Some ((H + stride - 1) / stride);
                 Some ((W + stride - 1) / stride); Some in_dim])
    by reflexivity.
  rewrite bind_extract_patches
    with (b := @None Z) (h := Some ((H + stride - 1) / stride))
         (w := Some ((W + stride - 1) / stride)) (d := in_dim)
         (h' := Some (((H + stride - 1) / stride - kh + kh) / kh))
         (w' := Some (((W + stride - 1) / stride - kw + kw) / kw));
    [ | reflexivity | assumption | assumption
      | cbn [window];
        now destruct (Z.ltb_spec ((H + stride - 1) / stride - kh + kh) 0);
          [lia|]
      | cbn [window];
        now destruct (Z.ltb_spec ((W + stride - 1) / stride - kw + kw) 0);
          [lia|] ].
  rewrite bind_tf_reshape with (sh := [None; Some (kh * kw); Some in_dim])
    by (apply reshape3_unknown with (n := O);
        [ reflexivity
        | cbn [shape known_elems]; apply Z.neq_sym, Z.lt_neq;
          repeat apply Z.mul_pos_pos; assumption || lia
        | nia | lia ]).
  rewrite <- bind_assoc.
  rewrite bind_PatchEncoder with (lead := @None Z) (c := in_dim)
    by (reflexivity || nia).
  eexists _, _. reflexivity.
Qed.

(** X10. With the other hyperparameters at the notebook's values,
    [get_model] builds for every patch height and width from 1 to 96 and
    every stride from 1 to 96: it raises nothing, whether or not the patch
    size divides the 96x96 images or the stride divides the patch size.
    The model takes batches of 32x32x3 images and returns one row of
    [num_classes] entries per image. *)
Theorem get_model_builds (patch_h patch_w stride : Z) (s : nat) :
  0 < patch_h <= 96 -> 0 < patch_w <= 96 -> 0 < stride <= 96 ->
  exists m s1,
    get_model image_size (patch_h, patch_w) outer_block_embedding_dim
      inner_block_embedding_dim num_transformer_layer outer_block_num_heads
      inner_block_num_heads mlp_ratio attention_dropout projection_dropout
      stride s = Ok (m, s1) /\
    shape (inputs m) = [None; Some 32; Some 32; Some 3] /\
    shape (outputs m) = [None; Some num_classes].
Proof.
  intros Hph Hpw Hs.
  set (kh := - (- patch_h / stride)). set (kw := - (- patch_w / stride)).
  pose proof (ceiling_positive patch_h stride ltac:(lia) ltac:(lia)) as Kh.
  pose proof (ceiling_positive patch_w stride ltac:(lia) ltac:(lia)) as Kw.
  fold kh in Kh. fold kw in Kw.
  set (N := 96 / patch_h * (96 / patch_w)).
  assert (HN : 0 < N).
  { subst N. apply Z.mul_pos_pos; apply Z.div_str_pos; lia. }
  unfold get_model.
  unfold Input at 1. rewrite bind_assoc, bind_fresh, bind_ret_l.
  cbn [input_shape map].
  destruct (data_augmentation_ok None (Some 32) (Some 32) (Some 3)
              (NInput s [None; Some 32; Some 32; Some 3]) (S s))
    as [g0 H0].
  rewrite (bind_ok _ _ _ _ _ H0).
  destruct (pixel_embed_unknown_batch 96 96 3 g0 image_size
              patch_h patch_w inner_block_embedding_dim stride (6 + S s)%nat)
    as (g1 & s1 & H1); try lia; [reflexivity|].
  rewrite (bind_ok _ _ _ _ _ H1). cbn beta iota. cbn [fst snd image_size].
  fold kh kw N.
  destruct (patch_embed_ok
              (mkTensor [None; Some (kh * kw);
                         Some inner_block_embedding_dim] g1)
              None N (kh * kw) inner_block_embedding_dim
              outer_block_embedding_dim s1 HN eq_refl) as [g2 H2].
  { apply reshape3_unknown with (n := O);
      [reflexivity|cbn [known_elems shape]; unfold inner_block_embedding_dim;
                   nia|lia|unfold inner_block_embedding_dim; nia]. }
  rewrite (bind_ok _ _ _ _ _ H2).
  destruct (iterate_block_step_ok None N (kh * kw) inner_block_embedding_dim
              outer_block_embedding_dim outer_block_num_heads
              inner_block_num_heads mlp_ratio attention_dropout
              projection_dropout HN ltac:(nia) eq_refl eq_refl eq_refl eq_refl
              eq_refl eq_refl (Z.to_nat num_transformer_layer)
              (mkTensor [None; Some (kh * kw);
                         Some inner_block_embedding_dim] g1)
              (mkTensor [None; Some N; Some outer_block_embedding_dim] g2)
              (7 + s1)%nat eq_refl eq_refl)
    as (px' & pa' & s2 & H3 & Hpx' & Hpa').
  unfold for_range. rewrite (bind_ok _ _ _ _ _ H3). cbn beta iota.
  rewrite bind_new_layer by reflexivity.
  rewrite bind_call
    with (sh := [None; Some N; Some outer_block_embedding_dim])
    by (rewrite Hpa'; apply layernorm_shape3).
  rewrite bind_new_layer by reflexivity.
  rewrite bind_call with (sh := [None; Some outer_block_embedding_dim])
    by reflexivity.
  rewrite bind_new_layer by reflexivity.
  rewrite bind_call with (sh := [None; Some num_classes]) by reflexivity.
  unfold ret. eexists _, _. split; [reflexivity|]. split; reflexivity.
Qed.

(** X10 on a model whose 7x7 patches do not divide the 96x96 images and
    whose stride 3 does not divide the patch size. *)
Lemma get_model_builds_witness :
  exists m s1,
    get_model image_size (7, 7) 64 32 5 4 2 4 attention_dropout
      projection_dropout 3 0%nat = Ok (m, s1) /\
    shape (outputs m) = [None; Some num_classes].
Proof.
  destruct (get_model_builds 7 7 3 0%nat) as (m & s1 & H & _ & Hout);
    try (split; [reflexivity|discriminate]).
  exists m, s1. split; [exact H|exact Hout].
Defined.

(** ** The dropout rates of a model *)

Ltac solve_rates :=
  cbn [uses graph] in *;
  repeat match goal with
         | U : _ \/ _ |- _ => destruct U as [U|U]
         | U : False |- _ => destruct U
         end;
  try (subst; right; intros ? K; cbn [layer_cfg] in K;
       first [discriminate K | injection K as <-; auto]);
  auto.

Lemma default_rate_is_module_rate l : default_rate_only l -> module_rate_only l.
Proof. intros H rate Hl. left. now apply H. Qed.

Lemma data_augmentation_uses x s t s1 l :
  data_augmentation x s = Ok (t, s1) ->
  uses l (graph t) -> uses l (graph x) \/ module_rate_only l.
Proof.
  intros H U. unfold data_augmentation in H. inv_all. solve_rates.
Qed.

Lemma pixel_embed_uses x isz psz d st s t n ips s1 l :
  pixel_embed x isz psz d st s = Ok (t, n, ips, s1) ->
  uses l (graph t) -> uses l (graph x) \/ module_rate_only l.
Proof.
  intros H U. unfold pixel_embed in H. inv_all. solve_rates.
Qed.

Lemma patch_embed_uses px N E D P s t s1 l :
  patch_embed px N E D P s = Ok (t, s1) ->
  uses l (graph t) -> uses l (graph px) \/ module_rate_only l.
Proof.
  intros H U. unfold patch_embed in H. inv_all. solve_rates.
Qed.

Lemma iterate_block_step_uses E D P oh ih r ad pd l k :
  forall px pa s px' pa' s',
    iterate k (block_step E D P oh ih r ad pd) (px, pa) s =
      Ok (px', pa', s') ->
    uses l (graph px') \/ uses l (graph pa') ->
    (uses l (graph px) \/ uses l (graph pa)) \/ module_rate_only l.
Proof.
  induction k as [|k IH]; intros px pa s px' pa' s' H U.
  - cbn in H. injection H as <- <- <-. auto.
  - cbn [iterate] in H. apply bind_ok_inv in H as ([px1 pa1] & s1 & H1 & H).
    unfold block_step in H1. cbn [fst snd] in H1.
    apply block_ok_inv in H1 as (s2 & Hin & Hout).
    destruct (IH _ _ _ _ _ _ H U) as [[U1|U1]|R]; auto.
    + destruct (inner_transformer_step_uses _ _ _ _ _ _ _ _ _ Hin U1);
        auto using default_rate_is_module_rate.
    + destruct (outer_transformer_step_uses _ _ _ _ _ _ _ _ _ _ _ _ Hout U1)
        as [[U2|U2]|R]; auto using default_rate_is_module_rate.
      destruct (inner_transformer_step_uses _ _ _ _ _ _ _ _ _ Hin U2);
        auto using default_rate_is_module_rate.
Qed.

(** X11. The [projection_dropout] argument of [get_model] has no effect:
    two calls that differ only there have the same result.  In a model
    that is built, every dropout layer has [mlp]'s default rate 0.2 or the
    module-level [projection_dropout] (0.5) that [patch_embed] reads. *)
Theorem get_model_dropout_rates
    (isz psz : Z * Z) (E D L oh ih r : Z) (ad a b : Q) (stride : Z) (s : nat) :
  get_model isz psz E D L oh ih r ad a stride s =
  get_model isz psz E D L oh ih r ad b stride s /\
  (forall m s1 l,
     get_model isz psz E D L oh ih r ad a stride s = Ok (m, s1) ->
     uses l (graph (outputs m)) -> module_rate_only l).
Proof.
  split; [reflexivity|].
  intros m s1 l H U. unfold get_model in H.
  apply bind_ok_inv in H as (inp & s0 & Hi & H).
  apply bind_ok_inv in H as (x & s2 & Ha & H).
  apply bind_ok_inv in H as ([[px n] ips] & s3 & Hpx & H).
  apply bind_ok_inv in H as (pa & s4 & Hpa & H).
  apply bind_ok_inv in H as ([px' pa'] & s5 & Hloop & H).
  unfold Input in Hi. inv_all. cbn [outputs graph uses] in U.
  assert (K : uses l (graph pa') -> module_rate_only l).
  { intros U'. unfold for_range in Hloop.
    destruct (iterate_block_step_uses _ _ _ _ _ _ _ _ l _ _ _ _ _ _ _ Hloop
                (or_intror U')) as [[U1|U1]|R]; trivial.
    - destruct (pixel_embed_uses _ _ _ _ _ _ _ _ _ _ l Hpx U1) as [U2|R];
        trivial.
      destruct (data_augmentation_uses _ _ _ _ l Ha U2) as [[]|R]; trivial.
    - destruct (patch_embed_uses _ _ _ _ _ _ _ _ l Hpa U1) as [U2|R];
        trivial.
      destruct (pixel_embed_uses _ _ _ _ _ _ _ _ _ _ l Hpx U2) as [U3|R];
        trivial.
      destruct (data_augmentation_uses _ _ _ _ l Ha U3) as [[]|R]; trivial. }
  destruct U as [->|[->|[->|U]]]; auto; intros ? Hc; discriminate Hc.
Qed.

(** X11 on the notebook's model, asked for rates 0.5 and 0.9. *)
Lemma get_model_dropout_rates_witness :
  get_model image_size patch_size 64 32 5 4 2 4 attention_dropout (5 # 10)
    4 0%nat =
  get_model image_size patch_size 64 32 5 4 2 4 attention_dropout (9 # 10)
    4 0%nat /\
  exists m s1,
    get_model image_size patch_size 64 32 5 4 2 4 attention_dropout (9 # 10)
      4 0%nat = Ok (m, s1) /\
    (forall l, uses l (graph (outputs m)) -> module_rate_only l).
Proof.
  destruct (get_model_dropout_rates image_size patch_size 64 32 5 4 2 4
              attention_dropout (9 # 10) (5 # 10) 4 0%nat) as [Heq Hrates].
  split; [symmetry; exact Heq|].
  assert (Hs : output_shape
                 (get_model image_size patch_size 64 32 5 4 2 4
                    attention_dropout (9 # 10) 4 0%nat)
               = Ok [None; Some 100]) by (vm_compute; reflexivity).
  destruct (get_model image_size patch_size 64 32 5 4 2 4 attention_dropout
              (9 # 10) 4 0%nat) as [[m s1]|e] eqn:E; [|discriminate Hs].
  exists m, s1. split; [reflexivity|].
  intros l U. exact (Hrates m s1 l eq_refl U).
Defined.

(** ** What a block checks on known shapes *)

Lemma reshape3_known_inv input a d sh :
  unknown_dims input = O -> 0 < a -> 0 < d ->
  reshape_shape input [-1; a; d] = Ok sh ->
  exists k, sh = [Some k; Some a; Some d] /\ known_elems input = k * (a * d).
Proof.
  intros Hu Ha Hd. unfold reshape_shape. rewrite requested3 by lia.
  assert (Ui : unknown_count input = O)
    by (unfold unknown_count; rewrite Hu; now destruct (_ =? 0)).
  assert (Uo : unknown_count [None; Some a; Some d] = 1%nat).
  { unfold unknown_count. cbn [known_elems unknown_dims].
    now destruct (Z.eqb_spec (a * (d * 1)) 0); [nia|]. }
  rewrite Ui, Uo.
  cbn [unknown_dims known_elems fill_unknown]. rewrite Z.mul_1_r.
  destruct (Z.ltb_spec 0 (a * d)); [|nia].
  destruct (Z.eqb_spec (known_elems input mod (a * d)) 0) as [E|];
    [|discriminate].
  intros [= <-]. eexists. split; [reflexivity|].
  apply Z.div_exact in E; lia.
Qed.

Lemma inner_transformer_step_shape px a P D ih r ad s px' s1 :
  shape px = [a; Some P; Some D] ->
  inner_transformer_step px D ih r ad s = Ok (px', s1) ->
  shape px' = [a; Some P; Some D].
Proof.
  intros Hpx H. unfold inner_transformer_step in H. inv_all.
  rewrite Hpx in *.
  repeat match goal with
         | K : compute_output_shape (LayerNormalization _) _ = Ok _ |- _ =>
             rewrite layernorm_shape3 in K; injection K as <-
         | K : compute_output_shape (MultiHeadAttention _ _ _) _ = Ok _ |- _ =>
             rewrite attention_shape3 in K; injection K as <-
         | K : compute_output_shape (Dense _ _) _ = Ok _ |- _ =>
             rewrite dense_shape3 in K; injection K as <-
         | K : compute_output_shape (Dropout _) _ = Ok _ |- _ =>
             cbn [compute_output_shape] in K; injection K as <-
         | K : merge _ _ = Ok _ |- _ =>
             rewrite merge_same3 in K; injection K as <-
         end.
  reflexivity.
Qed.

(** X12. On embeddings whose shapes are fully known, a block that returns
    has checked the invariant of the fusion: the pixel vectors handed to it
    are exactly [batch * num_patches * num_pixels], so that folding
    [num_pixels] vectors of width [in_embedding_dim] per patch gives one
    fused vector for every patch of every image. *)
Theorem block_checks_fusion_size
    (px pa : KerasTensor) (lead P D batch N E' : Z)
    (E num_pixels oh ih r : Z) (ad pd : Q) (s : nat)
    (px' pa' : KerasTensor) (s' : nat) :
  shape px = [Some lead; Some P; Some D] ->
  shape pa = [Some batch; Some N; Some E'] ->
  0 < N -> 0 < D -> 0 < num_pixels ->
  transformer_in_transformer_block px pa E D num_pixels oh ih r ad pd s =
    Ok (px', pa', s') ->
  lead * P = batch * N * num_pixels.
Proof.
  intros Hpx Hpa HN HD Hnp H.
  apply block_ok_inv in H as (s1 & Hin & Hout).
  pose proof (inner_transformer_step_shape _ _ _ _ _ _ _ _ _ _ Hpx Hin) as Hs.
  unfold outer_transformer_step in Hout. inv_all.
  rewrite Hpa in *. rewrite Hs in *.
  repeat match goal with
         | K : [_; _; _] = [_; _; _] |- _ => injection K as <- <- <-
         | K : Some _ = Some _ |- _ => injection K as <-
         end.
  match goal with
  | K : reshape_shape _ _ = Ok _ |- _ =>
      apply reshape3_known_inv in K as (k & -> & Hk);
      [|reflexivity|assumption|nia]
  end.
  repeat match goal with
         | K : compute_output_shape (LayerNormalization _) [[Some k; _; _]]
               = Ok _ |- _ =>
             rewrite layernorm_shape3 in K; injection K as <-
         | K : compute_output_shape (Dense _ _) [[Some k; _; _]] = Ok _ |- _ =>
             rewrite dense_shape3 in K; injection K as <-
         end.
  match goal with
  | K : merge [Some batch; _; _] [Some k; _; _] = Ok _ |- _ =>
      cbn [merge merge_batch] in K;
      destruct (Z.eqb_spec batch k) as [->|]; [clear K|discriminate K]
  end.
  cbn [known_elems] in Hk. nia.
Qed.

(** X12 on a batch of 2 images of 144 patches of 4 pixel vectors. *)
Lemma block_checks_fusion_size_witness :
  exists px' pa' s',
    transformer_in_transformer_block
      (tokens 0 (Some 288) 4 32) (tokens 1 (Some 2) 144 64) 64 32 4 4 2 4
      attention_dropout projection_dropout 2%nat = Ok (px', pa', s') /\
    288 * 4 = 2 * 144 * 4.
Proof.
  destruct (transformer_in_transformer_block
      (tokens 0 (Some 288) 4 32) (tokens 1 (Some 2) 144 64) 64 32 4 4 2 4
      attention_dropout projection_dropout 2%nat)
    as [[[px' pa'] s']|e] eqn:E; [|vm_compute in E; discriminate].
  exists px', pa', s'. split; [reflexivity|].
  exact (block_checks_fusion_size
           (tokens 0 (Some 288) 4 32) (tokens 1 (Some 2) 144 64)
           288 4 32 2 144 64 64 4 4 2 4 attention_dropout projection_dropout
           2%nat px' pa' s' eq_refl eq_refl eq_refl eq_refl eq_refl E).
Defined.

(** ** The two embedders together *)

(** X13. [pixel_embed] followed by [patch_embed], called as [get_model]
    calls them, on images of the size passed as [image_size]: when the
    stride divides the patch size and the patch size divides the image
    size, the fold of [patch_embed] undoes the grouping of [pixel_embed]
    and the patch embedding has shape [(batch, num_patches, outer_dim)],
    with the batch of the images. *)
Theorem embedders_restore_batch
    (batch : option Z) (H W C : Z) (g : node)
    (ph pw inner_dim outer_dim stride : Z) (s : nat) :
  0 < stride -> 0 < ph -> 0 < pw -> 0 < H -> 0 < W ->
  0 < inner_dim -> 0 < outer_dim ->
  ph mod stride = 0 -> pw mod stride = 0 ->
  H mod ph = 0 -> W mod pw = 0 ->
  exists px n ips pa,
    pixel_embed (mkTensor [batch; Some H; Some W; Some C] g) (H, W) (ph, pw)
      inner_dim stride s = Ok (px, n, ips, (4 + s)%nat) /\
    patch_embed px n outer_dim inner_dim (fst ips * snd ips) (4 + s)%nat =
      Ok (pa, (11 + s)%nat) /\
    n = (H / ph) * (W / pw) /\
    shape pa = [batch; Some n; Some outer_dim].
Proof.
  intros Hs Hph Hpw HH HW HD HE Dph Dpw DH DW.
  destruct (pixel_embed_divisible batch H W C g (H, W) ph pw inner_dim
              stride s) as (px & Hpx & Hshape); trivial.
  cbn [fst snd] in Hpx.
  assert (Kh : 0 < ph / stride) by (apply Z.div_exact in Dph; [nia|lia]).
  assert (Kw : 0 < pw / stride) by (apply Z.div_exact in Dpw; [nia|lia]).
  assert (HN : 0 < H / ph * (W / pw)).
  { pose proof DH as DH'. pose proof DW as DW'.
    apply Z.div_exact in DH'; [|lia]. apply Z.div_exact in DW'; [|lia].
    apply Z.mul_pos_pos; nia. }
  destruct (patch_embed_ok px batch (H / ph * (W / pw))
              (ph / stride * (pw / stride)) inner_dim outer_dim
              (4 + s)%nat HN HE) as [g' Hpa].
  { rewrite Hshape. destruct batch as [k|]; cbn [option_map].
    - apply reshape3_known; cbn [unknown_dims known_elems]; nia.
    - apply reshape3_unknown with (n := O);
      [reflexivity|cbn [known_elems]; nia|nia|nia]. }
  eexists px, _, _, _. split; [exact Hpx|]. cbn [fst snd].
  split; [exact Hpa|]. split; reflexivity.
Qed.

(** X13 on a batch of 128 images at the notebook's sizes. *)
Lemma embedders_restore_batch_witness :
  exists px n ips pa,
    pixel_embed (images (Some 128) 96 96 3) image_size patch_size 32 4 1%nat =
      Ok (px, n, ips, 5%nat) /\
    patch_embed px n 64 32 (fst ips * snd ips) 5%nat = Ok (pa, 12%nat) /\
    n = 144 /\
    shape pa = [Some 128; Some n; Some 64].
Proof.
  exact (embedders_restore_batch (Some 128) 96 96 3
           (NInput 0 [Some 128; Some 96; Some 96; Some 3]) 8 8 32 64 4 1%nat
           eq_refl eq_refl eq_refl eq_refl eq_refl eq_refl eq_refl eq_refl
           eq_refl eq_refl eq_refl).
Defined.

(** ** A block on a patch embedding of the wrong rank *)

(** X14. The block reads the number of patches by unpacking
    [patch_embedding.shape] into three names: on a pixel embedding that its
    inner transformer accepts and a patch embedding that is not of rank 3,
    it raises the unpacking error. *)
Theorem block_unpacks_patch_shape
    (px pa : KerasTensor) (lead : option Z) (P D E num_pixels oh ih r : Z)
    (ad pd : Q) (s : nat) :
  shape px = [lead; Some P; Some D] ->
  0 < D -> 0 < ih -> 0 < r -> (0 <= ad /\ ad <= 1)%Q ->
  List.length (shape pa) <> 3%nat ->
  transformer_in_transformer_block px pa E D num_pixels oh ih r ad pd s =
    Err UnpackError.
Proof.
  intros Hpx HD Hih Hr Had Hpa. apply rate_ok_iff in Had.
  destruct (inner_transformer_step_ok px lead P D ih r ad s Hpx HD Hih Hr Had)
    as (g & s1 & Hin).
  rewrite block_split, (bind_ok _ _ _ _ _ Hin).
  apply bind_err. unfold outer_transformer_step. apply bind_err.
  destruct (shape pa) as [|a [|b [|c [|]]]]; try reflexivity.
  now contradiction Hpa.
Qed.

(** X14 on a patch embedding given with its pooled shape. *)
Lemma block_unpacks_patch_shape_witness :
  transformer_in_transformer_block (tokens 0 None 4 32)
    (mkTensor [None; Some 64] (NInput 1 [None; Some 64])) 64 32 4 4 2 4
    attention_dropout projection_dropout 2%nat = Err UnpackError.
Proof.
  apply (block_unpacks_patch_shape (tokens 0 None 4 32)
           (mkTensor [None; Some 64] (NInput 1 [None; Some 64]))
           None 4 32 64 4 4 2 4 attention_dropout projection_dropout 2%nat);
    try reflexivity; [split|]; discriminate.
Defined.
